(** * frequency_count.py: a shallow embedding of [FileAnalyzer]

    The development follows [src/frequency_count.py].  Python strings are
    sequences of Unicode code points, Python [int]s are [Z], the stopword
    [set] is a [gset], the [Counter] is an insertion-ordered association
    list (its iteration order decides ties in [most_common]), and the
    methods of [FileAnalyzer] run in a small state-and-exception monad over
    the part of the outside world the program touches (the logger, the
    standard output, the documents and the [stopwords] directory). *)

From Stdlib Require Import ZArith NArith Ascii String DecimalString List Bool Lia
  Sorting.Sorted.
From stdpp Require Import base decidable countable list sorting gmap.

Close Scope string_scope.
Open Scope Z_scope.

(** ** Strings *)

(** A code point; a Python [str] is a list of them, so that [len] counts
    characters (one per ideograph), as in the source. *)
Definition char := N.
Bind Scope N_scope with char.
Definition pystr := list char.

(** ASCII literals of the source, written as Rocq strings. *)
Fixpoint lit (s : String.string) : pystr :=
  match s with
  | String.EmptyString => []
  | String.String a s' => N_of_ascii a :: lit s'
  end.

Arguments lit : simpl never.

(** [len(x)] *)
Definition len {A} (x : list A) : Z := Z.of_nat (length x).

(** [s.endswith(suffix)] *)
Definition endswith (s suffix : pystr) : bool :=
  (length suffix <=? length s)%nat
  && bool_decide (drop (length s - length suffix)%nat s = suffix).

(** [sep.join(parts)] *)
Fixpoint str_join (sep : pystr) (parts : list pystr) : pystr :=
  match parts with
  | [] => []
  | [p] => p
  | p :: rest => p ++ sep ++ str_join sep rest
  end.

(** [Py_UNICODE_ISSPACE]: the characters [str.strip()] removes and the
    regular-expression class [\s] matches on [str] patterns. *)
Definition Py_UNICODE_ISSPACE (c : char) : bool :=
  ((9 <=? c) && (c <=? 13) || (28 <=? c) && (c <=? 32)
   || (c =? 133) || (c =? 160) || (c =? 5760)
   || (8192 <=? c) && (c <=? 8202)
   || (c =? 8232) || (c =? 8233) || (c =? 8239) || (c =? 8287)
   || (c =? 12288))%N.

Fixpoint lstrip (s : pystr) : pystr :=
  match s with
  | [] => []
  | c :: s' => if Py_UNICODE_ISSPACE c then lstrip s' else s
  end.

Definition rstrip (s : pystr) : pystr := rev (lstrip (rev s)).

(** [s.strip()] *)
Definition strip (s : pystr) : pystr := rstrip (lstrip s).

(** Line iteration over a text-mode file ([for line in f]): a line ends
    after ["\n"]; with the default universal newlines ["\r"] and ["\r\n"]
    end a line too and are handed over as ["\n"]. *)
Fixpoint readlines_from (cur : pystr) (s : pystr) : list pystr :=
  match s with
  | [] => match cur with [] => [] | _ => [rev cur] end
  | c :: s' =>
      if (c =? 10)%N then rev (10%N :: cur) :: readlines_from [] s'
      else if (c =? 13)%N then
        match s' with
        | c' :: s'' =>
            if (c' =? 10)%N then readlines_from cur s'
            else rev (10%N :: cur) :: readlines_from [] s'
        | [] => [rev (10%N :: cur)]
        end
      else readlines_from (c :: cur) s'
  end.

(** ** Regular expressions

    The fragment of [re] the source uses: a character set, possibly
    negated, matched once or one-or-more times. *)

(** The Unicode character database behind [\d] and [\w]
    ([Py_UNICODE_ISDECIMAL] and the four components of
    [Py_UNICODE_ISALNUM]); the tables belong to the interpreter. *)
Class UnicodeData := {
  Py_UNICODE_ISALPHA : char -> bool;
  Py_UNICODE_ISDECIMAL : char -> bool;
  Py_UNICODE_ISDIGIT : char -> bool;
  Py_UNICODE_ISNUMERIC : char -> bool
}.

Inductive set_item :=
  | Lit (c : char)            (* a literal character *)
  | Range (lo hi : char)      (* lo-hi *)
  | ClassD                    (* \d *)
  | ClassW                    (* \w *)
  | ClassS.                   (* \s *)

Record charset := { negated : bool; items : list set_item }.

Inductive pattern :=
  | One (cs : charset)        (* [..]  *)
  | OneOrMore (cs : charset). (* [..]+ *)

Section Regex.
Context `{UnicodeData}.

Definition Py_UNICODE_ISALNUM (c : char) : bool :=
  Py_UNICODE_ISALPHA c || Py_UNICODE_ISDECIMAL c
  || Py_UNICODE_ISDIGIT c || Py_UNICODE_ISNUMERIC c.

(** [SRE_UNI_IS_WORD] *)
Definition is_word (c : char) : bool := Py_UNICODE_ISALNUM c || (c =? 95)%N.

Definition item_matches (it : set_item) (c : char) : bool :=
  match it with
  | Lit a => (c =? a)%N
  | Range lo hi => ((lo <=? c) && (c <=? hi))%N
  | ClassD => Py_UNICODE_ISDECIMAL c
  | ClassW => is_word c
  | ClassS => Py_UNICODE_ISSPACE c
  end.

Definition in_charset (cs : charset) (c : char) : bool :=
  xorb (negated cs) (existsb (fun it => item_matches it c) (items cs)).

(** The longest run of characters of the set at the head of [s]
    (the quantifier is greedy), and what follows it. *)
Fixpoint span_set (cs : charset) (s : pystr) : pystr * pystr :=
  match s with
  | [] => ([], [])
  | c :: s' =>
      if in_charset cs c
      then let '(m, r) := span_set cs s' in (c :: m, r)
      else ([], s)
  end.

(** A match anchored at the head of [s]: the matched text and the rest. *)
Definition re_match (p : pattern) (s : pystr) : option (pystr * pystr) :=
  match p with
  | One cs =>
      match s with
      | c :: s' => if in_charset cs c then Some ([c], s') else None
      | [] => None
      end
  | OneOrMore cs =>
      match span_set cs s with
      | ([], _) => None
      | (m, r) => Some (m, r)
      end
  end.

(** [pattern.fullmatch(s)] (its truth value) *)
Definition re_fullmatch (p : pattern) (s : pystr) : bool :=
  match re_match p s with
  | Some (_, []) => true
  | _ => false
  end.

(** The scan shared by [findall] and [sub]: leftmost matches that do not
    overlap; [fuel] bounds the number of positions visited. *)
Fixpoint scan (fuel : nat) (p : pattern) (s : pystr)
  : list (pystr + char) :=
  match fuel with
  | O => []
  | S fuel' =>
      match s with
      | [] => []
      | c :: s' =>
          match re_match p s with
          | Some (m, r) => inl m :: scan fuel' p r
          | None => inr c :: scan fuel' p s'
          end
      end
  end.

(** [re.findall(p, s)] *)
Definition re_findall (p : pattern) (s : pystr) : list pystr :=
  omap (fun x => match x with inl m => Some m | inr _ => None end)
       (scan (length s) p s).

(** [re.sub(p, repl, s)] *)
Definition re_sub (p : pattern) (repl : pystr) (s : pystr) : pystr :=
  concat (map (fun x => match x with inl _ => repl | inr c => [c] end)
              (scan (length s) p s)).
End Regex.

(** The patterns of the source. *)
Definition letter_pattern : pattern :=
  One {| negated := false; items := [Range 97 122; Range 65 90] |}.
Definition number_pattern : pattern :=
  One {| negated := false; items := [ClassD] |}.
Definition special_char_pattern : pattern :=
  One {| negated := true; items := [ClassW; ClassS] |}.
Definition chinese_char_pattern : pattern :=
  OneOrMore {| negated := false; items := [Range 0x4e00 0x9fff] |}.
Definition punctuation_marks : charset :=
  {| negated := false;
     items := map Lit
           [ 0x3002; 0xff0c; 0x3001; 0xff1b; 0xff1a; 0xff1f; 0xff01;
             0x300c; 0x300d; 0x300e; 0x300f; 0xff08; 0xff09; 0x3010;
             0x3011; 0x300a; 0x300b; 0x3008; 0x3009; 0x2014; 0x2014;
             0x2026; 0x2026; 0x2014; 0x00b7; 0xff5e; 0x201c; 0x201d;
             0x2018; 0x2019;
             0x2e; 0x2c; 0x3b; 0x3a; 0x3f; 0x21; 0x22; 0x27; 0x28; 0x29;
             0x5b; 0x5d; 0x7b; 0x7d; 0x2d; 0x5f; 0x3d; 0x2b; 0x26; 0x40;
             0x23; 0x24; 0x25; 0x2a; 0x7e; 0x2f; 0x7c; 0x5c; 0x3c; 0x3e;
             0x5e; 0x60 ]%N |}.
Definition punctuation_pattern : pattern := One punctuation_marks.

(** ** [collections.Counter] *)

Section CounterModel.
Context {K : Type} `{EqDecision K}.

(** A [Counter] is a [dict]: its items come in insertion order. *)
Definition counter := list (K * Z).

(** [self[elem] = self.get(elem, 0) + 1] *)
Fixpoint counter_add (c : counter) (elem : K) : counter :=
  match c with
  | [] => [(elem, 1)]
  | (k, n) :: c' =>
      if decide (k = elem) then (k, n + 1) :: c'
      else (k, n) :: counter_add c' elem
  end.

(** [Counter(words)] *)
Definition Counter (words : list K) : counter :=
  fold_left counter_add words [].

(** [sorted(items, key=itemgetter(1), reverse=True)]: a stable sort, items
    of equal count keep the order they had. *)
Fixpoint insert_desc (x : K * Z) (l : list (K * Z)) : list (K * Z) :=
  match l with
  | [] => [x]
  | y :: l' => if x.2 <? y.2 then y :: insert_desc x l' else x :: l
  end.

Definition sorted_reverse (l : list (K * Z)) : list (K * Z) :=
  foldr insert_desc [] l.

(** [c.most_common(n)] for an integer [n], that is
    [heapq.nlargest(n, c.items(), key=itemgetter(1))]: the first [n] items
    of the sorted list, and nothing when [n <= 0]. *)
Definition most_common (c : counter) (n : Z) : list (K * Z) :=
  take (Z.to_nat n) (sorted_reverse c).

(** The position at which [x] is first met in [l] ([length l] if never). *)
Fixpoint first_index (x : K) (l : list K) : nat :=
  match l with
  | [] => O
  | y :: l' => if decide (y = x) then O else S (first_index x l')
  end.

(** [l.count(x)] *)
Definition list_count (x : K) (l : list K) : Z :=
  len (List.filter (fun y => bool_decide (y = x)) l).

(** The distinct elements of [l], in the order they are first met. *)
Definition distinct (l : list K) : list K :=
  fold_left (fun acc x => if decide (x ∈ acc) then acc else acc ++ [x]) l [].

(** Descending count, and [earlier] among items of equal count. *)
Definition ranked_by (earlier : relation (K * Z)) (a b : K * Z) : Prop :=
  b.2 < a.2 ∨ (a.2 = b.2 ∧ earlier a b).

(** The order of a top-K view of the candidate list [l]: the larger count
    first, and among equal counts the element met first in [l]. *)
Definition rank (l : list K) : relation (K * Z) :=
  ranked_by (fun a b => (first_index a.1 l < first_index b.1 l)%nat).
End CounterModel.

Arguments counter : clear implicits.

(** ** The outside world *)

(** The exceptions of the program: the [ValueError] it raises itself, and
    whatever a document library raises, which it lets through. *)
Inductive exn :=
  | ValueError (msg : pystr)
  | ExtractionFailure (msg : pystr).

(** What a call into a document library gives: a value, or the message of
    the exception it raises. *)
Inductive outcome (A : Type) :=
  | Done (a : A)
  | Failed (msg : pystr).
Arguments Done {A} a.
Arguments Failed {A} msg.

Inductive result (A : Type) :=
  | Ok (a : A)
  | Raise (e : exn).
Arguments Ok {A} a.
Arguments Raise {A} e.

Inductive pyobj :=
  | PyNone
  | PyInt (z : Z)
  | PyStr (s : pystr).

(** A directory entry below [stopwords]; a file carries its decoded text. *)
Unset Elimination Schemes.
Inductive fsnode :=
  | FsFile (name : pystr) (content : pystr)
  | FsDir (name : pystr) (entries : list fsnode).
Set Elimination Schemes.

(** Induction over a directory tree, with the hypothesis for every entry. *)
Fixpoint fsnode_ind (P : fsnode -> Prop)
    (Hfile : forall name content, P (FsFile name content))
    (Hdir : forall name entries, Forall P entries -> P (FsDir name entries))
    (n : fsnode) : P n :=
  match n with
  | FsFile name content => Hfile name content
  | FsDir name entries =>
      Hdir name entries
        ((fix all (l : list fsnode) : Forall P l :=
            match l with
            | [] => @List.Forall_nil _ P
            | x :: l' =>
                @List.Forall_cons _ P x l' (fsnode_ind P Hfile Hdir x) (all l')
            end) entries)
  end.

(** A logging call: level, format string and the list it is applied to. *)
Record log_record := {
  levelno : Z;
  msg : pystr;
  args : option (list (pystr * Z))
}.

Definition INFO : Z := 20.
Definition WARNING : Z := 30.
Definition ERROR : Z := 40.

Record world := {
  (* read by the program *)
  localtime : pystr;                    (* the formatted local time *)
  stopwords_dir : option (list fsnode); (* [None]: no such directory *)
  fitz_documents : pystr -> outcome (list (outcome pystr));
                                        (* per path: the pages' text *)
  docx_documents : pystr -> outcome (list pystr);
                                        (* per path: the paragraphs' text *)
  (* changed by the program *)
  logger_level : Z;                     (* of the module's logger *)
  logger_handlers : list pystr;         (* its file handlers, by file name *)
  log_files : list (pystr * log_record);(* records written, with the file *)
  stdout : list (list pyobj);           (* one entry per [print] call *)
  open_documents : list pystr;          (* [fitz] documents open now *)
  accessed : list pystr                 (* files opened so far *)
}.

Definition with_logger (lvl : Z) (hs : list pystr)
    (out : list (pystr * log_record)) (w : world) : world :=
  {| localtime := localtime w; stopwords_dir := stopwords_dir w;
     fitz_documents := fitz_documents w; docx_documents := docx_documents w;
     logger_level := lvl; logger_handlers := hs; log_files := out;
     stdout := stdout w; open_documents := open_documents w;
     accessed := accessed w |}.

Definition with_stdout (o : list (list pyobj)) (w : world) : world :=
  {| localtime := localtime w; stopwords_dir := stopwords_dir w;
     fitz_documents := fitz_documents w; docx_documents := docx_documents w;
     logger_level := logger_level w; logger_handlers := logger_handlers w;
     log_files := log_files w;
     stdout := o; open_documents := open_documents w;
     accessed := accessed w |}.

Definition with_files (opened acc : list pystr) (w : world) : world :=
  {| localtime := localtime w; stopwords_dir := stopwords_dir w;
     fitz_documents := fitz_documents w; docx_documents := docx_documents w;
     logger_level := logger_level w; logger_handlers := logger_handlers w;
     log_files := log_files w;
     stdout := stdout w; open_documents := opened; accessed := acc |}.

(** ** The monad of a method: state of the world, and exceptions *)

Definition M (A : Type) : Type := world -> result A * world.

Definition ret {A} (a : A) : M A := fun w => (Ok a, w).

Definition bind {A B} (m : M A) (f : A -> M B) : M B :=
  fun w =>
    match m w with
    | (Ok a, w') => f a w'
    | (Raise e, w') => (Raise e, w')
    end.

Definition raise {A} (e : exn) : M A := fun w => (Raise e, w).

Definition gets {A} (f : world -> A) : M A := fun w => (Ok (f w), w).

Definition modify (f : world -> world) : M unit := fun w => (Ok tt, f w).

Definition lift {A} (o : outcome A) : M A :=
  match o with
  | Done a => ret a
  | Failed m => raise (ExtractionFailure m)
  end.

Declare Scope py_scope.
Delimit Scope py_scope with py.
Notation "'let*' x := m 'in' k" := (bind m (fun x => k))
  (at level 10, x name, m at level 100, k at level 200) : py_scope.
Notation "m ;;; k" := (bind m (fun _ => k))
  (at level 100, k at level 200, right associativity) : py_scope.
Open Scope py_scope.

(** [for x in xs: acc = body(x, acc)], leaving at the first exception. *)
Fixpoint for_each {A S} (xs : list A) (body : A -> S -> M S) (acc : S) : M S :=
  match xs with
  | [] => ret acc
  | x :: xs' => let* acc' := body x acc in for_each xs' body acc'
  end.

(** ** Library calls *)

(** [Logger.getEffectiveLevel]: an unset level defers to the root logger,
    whose level is [WARNING]. *)
Definition getEffectiveLevel (w : world) : Z :=
  if logger_level w =? 0 then WARNING else logger_level w.

Definition logger_setLevel (lvl : Z) : M unit :=
  modify (fun w => with_logger lvl (logger_handlers w) (log_files w) w).

(** [logger.addHandler(logging.FileHandler(name))]: making the handler opens
    the file for appending, which creates it when it is missing. *)
Definition logger_addHandler (name : pystr) : M unit :=
  modify (fun w =>
    with_files (open_documents w) (accessed w ++ [name])
      (with_logger (logger_level w) (logger_handlers w ++ [name])
         (log_files w) w)).

(** [logger.log(lvl, m, a)]: every handler of the logger writes the record
    when the level is enabled. *)
Definition logger_log (lvl : Z) (m : pystr) (a : option (list (pystr * Z)))
  : M unit :=
  modify (fun w =>
    if getEffectiveLevel w <=? lvl then
      with_logger (logger_level w) (logger_handlers w)
        (log_files w
         ++ map (fun h => (h, {| levelno := lvl; msg := m; args := a |}))
                (logger_handlers w)) w
    else w).

Definition logger_info := logger_log INFO.
Definition logger_error := logger_log ERROR.

(** [print(a, b, ...)] *)
Definition print (objs : list pyobj) : M unit :=
  modify (fun w => with_stdout (stdout w ++ [objs]) w).

(** [fitz.open(path)]: the document is open for as long as it is referenced,
    or until it is closed. *)
Definition fitz_open (path : pystr) : M (list (outcome pystr)) :=
  fun w =>
    match fitz_documents w path with
    | Done pages =>
        (Ok pages,
         with_files (open_documents w ++ [path]) (accessed w ++ [path]) w)
    | Failed m =>
        (Raise (ExtractionFailure m),
         with_files (open_documents w) (accessed w ++ [path]) w)
    end.

Fixpoint remove_first (path : pystr) (l : list pystr) : list pystr :=
  match l with
  | [] => []
  | q :: l' => if decide (q = path) then l' else q :: remove_first path l'
  end.

(** The last reference to a document goes away: the interpreter finalises
    the document at once (reference counting), which closes its file.  Of
    several open documents of one path, the one opened last is meant. *)
Definition fitz_finalise (path : pystr) : M unit :=
  modify (fun w =>
    with_files (rev (remove_first path (rev (open_documents w))))
      (accessed w) w).

(** [docx.Document(path)]: the package is read into memory by the call. *)
Definition docx_Document (path : pystr) : M (list pystr) :=
  fun w =>
    lift (docx_documents w path)
         (with_files (open_documents w) (accessed w ++ [path]) w).

(** [with open(path, 'r', encoding='utf-8') as f: for line in f] *)
Definition open_lines (path content : pystr) : M (list pystr) :=
  fun w =>
    (Ok (readlines_from [] content),
     with_files (open_documents w) (accessed w ++ [path]) w).

(** [os.path.join(a, b)] for a relative [b] *)
Definition os_path_join (a b : pystr) : pystr := a ++ lit "/" ++ b.

Definition dirnames (entries : list fsnode) : list pystr :=
  omap (fun n => match n with FsDir name _ => Some name | _ => None end)
       entries.

Definition filenames (entries : list fsnode) : list (pystr * pystr) :=
  omap (fun n =>
          match n with FsFile name c => Some (name, c) | _ => None end)
       entries.

(** [os.walk]: top-down, one triple [(root, dirs, files)] per directory;
    [files] here also carries what opening the file will give. *)
Fixpoint os_walk_node (parent : pystr) (n : fsnode)
  : list (pystr * list pystr * list (pystr * pystr)) :=
  match n with
  | FsFile _ _ => []
  | FsDir name entries =>
      let root := os_path_join parent name in
      (root, dirnames entries, filenames entries)
        :: flat_map (os_walk_node root) entries
  end.

(** A missing top directory yields nothing ([os.walk] ignores the error). *)
Definition os_walk (top : pystr) (d : option (list fsnode))
  : list (pystr * list pystr * list (pystr * pystr)) :=
  match d with
  | None => []
  | Some entries =>
      (top, dirnames entries, filenames entries)
        :: flat_map (os_walk_node top) entries
  end.

(** The segmentation library. *)
Class Jieba := {
  (** [jieba.cut(text)] *)
  jieba_cut : pystr -> list pystr;
  (** [jieba.analyse.extract_tags(text, topK=k, withWeight=False,
      allowPOS=())] *)
  jieba_extract_tags : pystr -> Z -> list pystr
}.

(** ** [class FileAnalyzer] *)

Record FileAnalyzer := {
  file_path : pystr;
  stopwords : gset pystr
}.

Record AnalysisResult := {
  Chinese_Words : list (pystr * Z);
  Numbers : list (pystr * Z);
  Special_Characters : list (pystr * Z)
}.

(** [FileAnalyzer.__init__] *)
Definition FileAnalyzer_init (path : pystr) : M FileAnalyzer :=
  logger_setLevel INFO ;;;
  let* time_str := gets localtime in
  logger_addHandler (time_str ++ lit "log.txt") ;;;
  let* tree := gets stopwords_dir in
  let* sw :=
    for_each (os_walk (lit "stopwords") tree)
      (fun '(root, dirs, files) sw =>
         for_each files
           (fun '(file, content) sw =>
              if negb (endswith file (lit ".txt")) then ret sw
              else
                let* lines := open_lines (os_path_join root file) content in
                for_each lines
                  (fun line sw => ret ({[ strip line ]} ∪ sw)) sw)
           sw)
      (∅ : gset pystr) in
  ret {| file_path := path; stopwords := sw |}.

Definition unsupported_message : pystr :=
  lit "Unsupported file format. Only .pdf and .docx are supported.".

Section Methods.
Context `{UnicodeData} `{Jieba}.

Definition _remove_stopwords (self : FileAnalyzer) (text : list pystr)
  : list pystr :=
  List.filter
    (fun x => (1 <? len x) && negb (bool_decide (x ∈ stopwords self)))
    text.

(** The pages are visited in order, [text += page.get_text()].  The method
    does not close the document: [doc] is a local, the only reference to it,
    so that [return text] finalises it with the frame.  An exception leaves
    without that step, its traceback keeps the frame and [doc] with it. *)
Definition _extract_text_from_pdf (self : FileAnalyzer) : M pystr :=
  let* doc := fitz_open (file_path self) in
  let* text :=
    for_each doc (fun page text => let* t := lift page in ret (text ++ t)) [] in
  fitz_finalise (file_path self) ;;;
  ret text.

Definition _extract_text_from_docx (self : FileAnalyzer) : M pystr :=
  let* doc := docx_Document (file_path self) in
  ret (str_join [10%N] doc).

Definition _word_frequency (words : list pystr) : counter pystr :=
  Counter words.


(** The [if]/[elif]/[else] at the head of both public methods. *)
Definition extract (self : FileAnalyzer) : M pystr :=
  if endswith (file_path self) (lit ".pdf") then
    _extract_text_from_pdf self
  else if endswith (file_path self) (lit ".docx") then
    _extract_text_from_docx self
  else
    logger_error (lit "Unsupported file format") None ;;;
    raise (ValueError unsupported_message).

Definition analyze_file (self : FileAnalyzer) (top_k_words : Z)
  : M AnalysisResult :=
  let* text := extract self in
  let words := jieba_cut text in
  let cleaned_words := _remove_stopwords self words in
  let cleaned_text := str_join (lit " ") cleaned_words in
  let words := jieba_extract_tags cleaned_text 1000 in
  let chinese := List.filter (re_fullmatch chinese_char_pattern) words in
  let numbers := re_findall number_pattern text in
  let special_characters := re_findall special_char_pattern text in
  let chinese_word_counts := _word_frequency chinese in
  let chinese_common_words := most_common chinese_word_counts top_k_words in
  logger_info (lit "Most common chinese characters: %s")
    (Some chinese_common_words) ;;;
  let number_counts := _word_frequency numbers in
  let number_common_words := most_common number_counts top_k_words in
  logger_info (lit "Most common numbers: %s")
    (Some number_common_words) ;;;
  let special_char_counts := _word_frequency special_characters in
  let special_char_common_words :=
    most_common special_char_counts top_k_words in
  logger_info (lit "Most common special characters: %s")
    (Some special_char_common_words) ;;;
  ret {| Chinese_Words := chinese_common_words;
         Numbers := number_common_words;
         Special_Characters := special_char_common_words |}.

(** The values of the locals [chinese], [numbers] and
    [special_characters] of [analyze_file] once [text] is extracted
    (see [analyze_file_run]). *)
Definition keyword_tokens (self : FileAnalyzer) (text : pystr) : list pystr :=
  jieba_extract_tags
    (str_join (lit " ") (_remove_stopwords self (jieba_cut text))) 1000.

Definition chinese_candidates (self : FileAnalyzer) (text : pystr)
  : list pystr :=
  List.filter (re_fullmatch chinese_char_pattern) (keyword_tokens self text).

Definition number_candidates (text : pystr) : list pystr :=
  re_findall number_pattern text.

Definition special_candidates (text : pystr) : list pystr :=
  re_findall special_char_pattern text.

(** The method ends after [print]: it has no [return] statement. *)
Definition count_given_word_frequency (self : FileAnalyzer)
    (input_word : pystr) : M pyobj :=
  let* text := extract self in
  let cleaned_text := re_sub punctuation_pattern (lit " ") text in
  let words := jieba_cut cleaned_text in
  let chinese :=
    map strip
      (List.filter (fun word => negb (bool_decide (strip word = []))) words) in
  let count := list_count input_word chinese in
  print [PyStr (lit "The frequency of the given word is: "); PyInt count] ;;;
  ret PyNone.

(** The value of the local [chinese] of [count_given_word_frequency]
    (see [count_given_word_frequency_run]). *)
Definition counted_tokens (text : pystr) : list pystr :=
  map strip
    (List.filter (fun word => negb (bool_decide (strip word = [])))
       (jieba_cut (re_sub punctuation_pattern (lit " ") text))).
End Methods.

(** ** [class GUI]

    The window acts on the world of the analyzers; besides, it has the
    selected path, the text of the output area and the message boxes it
    has shown, and it is fed by the user: what the file picker and the word
    prompt will return, call after call. *)

Inductive dialog :=
  | Info (title message : pystr)      (* [messagebox.showinfo] *)
  | Warning (title message : pystr)   (* [messagebox.showwarning] *)
  | Error (title message : pystr).    (* [messagebox.showerror] *)

Record desktop := {
  os : world;
  GUI_file_path : option pystr;       (* [self.file_path], [None] at first *)
  output_area : pystr;                (* the text in [self.output_area] *)
  dialogs : list dialog;              (* the boxes shown, oldest first *)
  picker_answers : list pystr;        (* coming results of the file picker *)
  prompt_answers : list (option pystr)(* coming results of the word prompt *)
}.

Definition with_os (w : world) (d : desktop) : desktop :=
  {| os := w; GUI_file_path := GUI_file_path d;
     output_area := output_area d; dialogs := dialogs d;
     picker_answers := picker_answers d;
     prompt_answers := prompt_answers d |}.

Definition with_file_path (p : option pystr) (d : desktop) : desktop :=
  {| os := os d; GUI_file_path := p;
     output_area := output_area d; dialogs := dialogs d;
     picker_answers := picker_answers d;
     prompt_answers := prompt_answers d |}.

Definition with_output (t : pystr) (d : desktop) : desktop :=
  {| os := os d; GUI_file_path := GUI_file_path d;
     output_area := t; dialogs := dialogs d;
     picker_answers := picker_answers d;
     prompt_answers := prompt_answers d |}.

Definition with_dialogs (l : list dialog) (d : desktop) : desktop :=
  {| os := os d; GUI_file_path := GUI_file_path d;
     output_area := output_area d; dialogs := l;
     picker_answers := picker_answers d;
     prompt_answers := prompt_answers d |}.

Definition with_answers (picks : list pystr) (words : list (option pystr))
    (d : desktop) : desktop :=
  {| os := os d; GUI_file_path := GUI_file_path d;
     output_area := output_area d; dialogs := dialogs d;
     picker_answers := picks; prompt_answers := words |}.

(** The monad of a method of the window. *)
Definition G (A : Type) : Type := desktop -> result A * desktop.

Definition gret {A} (a : A) : G A := fun d => (Ok a, d).

Definition gbind {A B} (m : G A) (f : A -> G B) : G B :=
  fun d =>
    match m d with
    | (Ok a, d') => f a d'
    | (Raise e, d') => (Raise e, d')
    end.

Declare Scope gui_scope.
Delimit Scope gui_scope with gui.
Notation "'let*' x := m 'in' k" := (gbind m (fun x => k))
  (at level 10, x name, m at level 100, k at level 200) : gui_scope.
Notation "m ;;; k" := (gbind m (fun _ => k))
  (at level 100, k at level 200, right associativity) : gui_scope.

(** A call into the analyzer, on the world of the desktop. *)
Definition call {A} (m : M A) : G A :=
  fun d => let '(r, w') := m (os d) in (r, with_os w' d).

(** The end of an [except Exception as e] clause deletes [e], and with it
    the traceback and the frames it kept: the documents opened in the [try]
    body and still open when it raised are finalised there, and those that
    were open [before] the [try] remain. *)
Definition released (before w : world) : world :=
  with_files (take (length (open_documents before)) (open_documents w))
    (accessed w) w.

Definition end_except (before : world) : G unit :=
  fun d => (Ok tt, with_os (released before (os d)) d).

(** [try: body except Exception as e: handler(e)]; what the body did before
    it raised stays done. *)
Definition try_except {A} (body : G A) (handler : exn -> G A) : G A :=
  fun d =>
    match body d with
    | (Ok a, d') => (Ok a, d')
    | (Raise e, d') =>
        gbind (handler e) (fun a => gbind (end_except (os d)) (fun _ => gret a))
          d'
    end.

(** [for x in xs: body(x)] *)
Fixpoint gfor_each {A} (xs : list A) (body : A -> G unit) : G unit :=
  match xs with
  | [] => gret tt
  | x :: xs' => gbind (body x) (fun _ => gfor_each xs' body)
  end.

(** [str(e)]: the message the exception was made with. *)
Definition str_exn (e : exn) : pystr :=
  match e with
  | ValueError m => m
  | ExtractionFailure m => m
  end.

(** [str(n)] for an [int] *)
Definition str_int (n : Z) : pystr := lit (NilZero.string_of_int (Z.to_int n)).

(** [str(v)], as an f-string formats a value *)
Definition str_obj (v : pyobj) : pystr :=
  match v with
  | PyNone => lit "None"
  | PyInt n => str_int n
  | PyStr s => s
  end.

(** The truth value of [self.file_path] and of [input_word]: [None] and the
    empty string are false. *)
Definition truthy (p : option pystr) : bool :=
  match p with
  | None | Some [] => false
  | Some (_ :: _) => true
  end.

Definition messagebox (b : dialog) : G unit :=
  fun d => (Ok tt, with_dialogs (dialogs d ++ [b]) d).

(** [filedialog.askopenfilename(...)]: the path chosen, or the empty string
    when the user cancels. *)
Definition filedialog_askopenfilename : G pystr :=
  fun d =>
    match picker_answers d with
    | [] => (Ok [], d)
    | a :: rest => (Ok a, with_answers rest (prompt_answers d) d)
    end.

(** [simpledialog.askstring(...)]: the text typed, or [None] when the user
    cancels. *)
Definition simpledialog_askstring : G (option pystr) :=
  fun d =>
    match prompt_answers d with
    | [] => (Ok None, d)
    | a :: rest => (Ok a, with_answers (picker_answers d) rest d)
    end.

(** [self.output_area.delete(1.0, tk.END)] *)
Definition output_delete : G unit := fun d => (Ok tt, with_output [] d).

(** [self.output_area.insert(tk.END, text)] *)
Definition output_insert (text : pystr) : G unit :=
  fun d => (Ok tt, with_output (output_area d ++ text) d).

(** [GUI.__init__]: no file is selected, the output area is empty. *)
Definition GUI_init (w : world) (picks : list pystr)
    (words : list (option pystr)) : desktop :=
  {| os := w; GUI_file_path := None; output_area := []; dialogs := [];
     picker_answers := picks; prompt_answers := words |}.

(** [GUI.select_file] *)
Definition GUI_select_file : G unit :=
  (let* path := filedialog_askopenfilename in
   (fun d => (Ok tt, with_file_path (Some path) d)) ;;;
   match path with
   | [] => gret tt
   | _ :: _ =>
       messagebox (Info (lit "File Selected") (lit "Selected file: " ++ path))
   end)%gui.

Section Window.
Context `{UnicodeData} `{Jieba}.

(** One line per entry: [f"{word}: {count}\n"]. *)
Definition insert_entries (entries : list (pystr * Z)) : G unit :=
  gfor_each entries
    (fun '(word, count) =>
       output_insert (word ++ lit ": " ++ str_int count ++ [10%N])).

(** [GUI.analyze_file] *)
Definition GUI_analyze_file : G unit :=
  fun d =>
    match GUI_file_path d with
    | None | Some [] =>
        messagebox
          (Warning (lit "No File") (lit "Please select a file first.")) d
    | Some file_path =>
        try_except
          (let* analyzer := call (FileAnalyzer_init file_path) in
           let* results := call (analyze_file analyzer 10) in
           output_delete ;;;
           output_insert (lit "Most Common Chinese Words:" ++ [10%N]) ;;;
           insert_entries (Chinese_Words results) ;;;
           output_insert ([10%N] ++ lit "Most Common Numbers:" ++ [10%N]) ;;;
           insert_entries (Numbers results) ;;;
           output_insert
             ([10%N] ++ lit "Most Common Special Characters:" ++ [10%N]) ;;;
           insert_entries (Special_Characters results))%gui
          (fun e => messagebox (Error (lit "Error") (str_exn e)))
          d
    end.

(** [GUI.count_word_frequency] *)
Definition GUI_count_word_frequency : G unit :=
  fun d =>
    match GUI_file_path d with
    | None | Some [] =>
        messagebox
          (Warning (lit "No File") (lit "Please select a file first.")) d
    | Some file_path =>
        (let* input_word := simpledialog_askstring in
         match input_word with
         | None | Some [] => gret tt
         | Some word =>
             try_except
               (let* analyzer := call (FileAnalyzer_init file_path) in
                let* frequency :=
                  call (count_given_word_frequency analyzer word) in
                messagebox
                  (Info (lit "Word Frequency")
                     (lit "The frequency of '" ++ word ++ lit "' is: "
                      ++ str_obj frequency)))
               (fun e => messagebox (Error (lit "Error") (str_exn e)))
         end)%gui
          d
    end.
End Window.

(** The three buttons, and the event loop over the clicks of a session. *)
Inductive button := SelectFile | AnalyzeFile | CountWordFrequency.

Section Session.
Context `{UnicodeData} `{Jieba}.

Definition command (b : button) : G unit :=
  match b with
  | SelectFile => GUI_select_file
  | AnalyzeFile => GUI_analyze_file
  | CountWordFrequency => GUI_count_word_frequency
  end.

Definition mainloop (clicks : list button) : G unit := gfor_each clicks command.
End Session.

(** ** Sample inputs *)

(** "你好" *)
Definition nihao : pystr := [0x4f60; 0x597d]%N.

(** "你好，世界！你好！" *)
Definition greeting_text : pystr :=
  [0x4f60; 0x597d; 0xff0c; 0x4e16; 0x754c; 0xff01; 0x4f60; 0x597d; 0xff01]%N.

(** "你好 世界 你好 3 apples, 2 oranges!" *)
Definition mixed_text : pystr :=
  [0x4f60; 0x597d; 32; 0x4e16; 0x754c; 32; 0x4f60; 0x597d; 32]%N
  ++ lit "3 apples, 2 oranges!".

(** A [stopwords] directory: a list with a blank line in it, a file that is
    not a [.txt] file, and a list one level down. *)
Definition sample_stopwords : list fsnode :=
  [ FsFile (lit "cn.txt") [0x7684; 10; 10; 0x4e86; 10]%N;
    FsFile (lit "README.md") (lit "notes");
    FsDir (lit "extra") [ FsFile (lit "en.txt") (lit " the ") ] ].

Definition sample_world : world :=
  {| localtime := lit "2024-05-01 09:30:00";
     stopwords_dir := Some sample_stopwords;
     fitz_documents path :=
       if bool_decide (path = lit "greeting.pdf") then
         Done [Done greeting_text]
       else if bool_decide (path = lit "mixed.pdf") then
         Done [Done mixed_text]
       else if bool_decide (path = lit "torn.pdf") then
         Done [Done greeting_text; Failed (lit "cannot load page 1")]
       else Failed (lit "no such file");
     docx_documents path :=
       if bool_decide (path = lit "greeting.docx") then
         Done [nihao; [0x4e16; 0x754c]%N]
       else Failed (lit "Package not found");
     logger_level := 0;
     logger_handlers := [];
     log_files := [];
     stdout := [];
     open_documents := [];
     accessed := [] |}.

(** The same documents in a world without a [stopwords] directory, where
    the logger and the files have a history. *)
Definition bare_world : world :=
  {| localtime := localtime sample_world;
     stopwords_dir := None;
     fitz_documents := fitz_documents sample_world;
     docx_documents := docx_documents sample_world;
     logger_level := 10;
     logger_handlers := [lit "old.log"];
     log_files := [];
     stdout := [];
     open_documents := [lit "other.pdf"];
     accessed := [lit "other.pdf"] |}.

Definition analyzer_of (path : pystr) : FileAnalyzer :=
  {| file_path := path; stopwords := {[ [0x7684]%N; [0x4e86]%N ]} |}.

(** [sub in s] for strings *)
Fixpoint starts_with (s sub : pystr) : bool :=
  match sub, s with
  | [], _ => true
  | a :: sub', b :: s' => (a =? b)%N && starts_with s' sub'
  | _ :: _, [] => false
  end.

Fixpoint contains (s sub : pystr) : bool :=
  starts_with s sub
  || match s with
     | [] => false
     | _ :: s' => contains s' sub
     end.

(** The paths the dispatch accepts. *)
Definition supported (path : pystr) : bool :=
  endswith path (lit ".pdf") || endswith path (lit ".docx").

(** Two worlds that hold the same documents. *)
Definition same_documents (w1 w2 : world) : Prop :=
  fitz_documents w1 = fitz_documents w2
  ∧ docx_documents w1 = docx_documents w2.

(** The files below a directory listing, at any depth, with their text. *)
Inductive tree_file : list fsnode -> pystr -> pystr -> Prop :=
  | tree_file_here entries name content :
      FsFile name content ∈ entries -> tree_file entries name content
  | tree_file_below entries dir sub name content :
      FsDir dir sub ∈ entries -> tree_file sub name content ->
      tree_file entries name content.

(** ** Test doubles

    Stand-ins for the interpreter's tables and for the segmentation library,
    used to run the methods on concrete inputs. *)

(** ASCII and the CJK Unified Ideographs only. *)
Definition ascii_cjk_data : UnicodeData :=
  {| Py_UNICODE_ISALPHA c :=
       ((97 <=? c) && (c <=? 122) || (65 <=? c) && (c <=? 90)
        || (0x4e00 <=? c) && (c <=? 0x9fff))%N;
     Py_UNICODE_ISDECIMAL c := ((48 <=? c) && (c <=? 57))%N;
     Py_UNICODE_ISDIGIT c := ((48 <=? c) && (c <=? 57))%N;
     Py_UNICODE_ISNUMERIC c := ((48 <=? c) && (c <=? 57))%N |}.

(** Cuts after every space and in front of one: the words between spaces,
    and each space by itself. *)
Fixpoint space_cut_from (cur : pystr) (s : pystr) : list pystr :=
  match s with
  | [] => match cur with [] => [] | _ => [rev cur] end
  | c :: s' =>
      if (c =? 32)%N then
        match cur with
        | [] => [c] :: space_cut_from [] s'
        | _ => rev cur :: [c] :: space_cut_from [] s'
        end
      else space_cut_from (c :: cur) s'
  end.

(** Keeps the first occurrence of every word. *)
Fixpoint first_occurrences (seen : list pystr) (l : list pystr) : list pystr :=
  match l with
  | [] => []
  | x :: l' =>
      if bool_decide (x ∈ seen) then first_occurrences seen l'
      else x :: first_occurrences (x :: seen) l'
  end.

Definition space_jieba : Jieba :=
  {| jieba_cut s := space_cut_from [] s;
     jieba_extract_tags s k :=
       take (Z.to_nat k)
         (first_occurrences []
            (List.filter (fun w => negb (bool_decide (strip w = [])))
                         (space_cut_from [] s))) |}.

(** ** Sample windows *)


(** A window on [bare_world] where [path] is selected, some text is in the
    output area, and the user is about to type "你好". *)
Definition window_on (path : pystr) : desktop :=
  {| os := bare_world; GUI_file_path := Some path;
     output_area := lit "earlier report"; dialogs := [];
     picker_answers := []; prompt_answers := [Some nihao] |}.

(** ** Notions used to state further properties *)

(** No whitespace in front. *)
Definition clean_head (s : pystr) : Prop :=
  match s with
  | [] => True
  | c :: _ => Py_UNICODE_ISSPACE c = false
  end.

(** [sum(c.values())] *)
Definition total {K : Type} (c : list (K * Z)) : Z :=
  foldr (fun kv s => kv.2 + s) 0 c.

(** The world [w'] is [w] with the files [new] opened for reading since. *)
Definition opens (new : list pystr) (w w' : world) : Prop :=
  w' = with_files (open_documents w) (accessed w ++ new) w.

(** A listed stopword file: a [.txt] file below [stopwords]. *)
Definition stopword_file (p : pystr) : Prop :=
  endswith p (lit ".txt") = true ∧ lit "stopwords/" `prefix_of` p.

(** The line of an entry in the output area, and the text a successful
    [GUI.analyze_file] leaves there (see [GUI_analyze_file_run]). *)
Definition entry_line (entry : pystr * Z) : pystr :=
  entry.1 ++ lit ": " ++ str_int entry.2 ++ [10%N].

Definition report (results : AnalysisResult) : pystr :=
  (lit "Most Common Chinese Words:" ++ [10%N])
  ++ concat (map entry_line (Chinese_Words results))
  ++ ([10%N] ++ lit "Most Common Numbers:" ++ [10%N])
  ++ concat (map entry_line (Numbers results))
  ++ ([10%N] ++ lit "Most Common Special Characters:" ++ [10%N])
  ++ concat (map entry_line (Special_Characters results)).

(** The number of line ends in a text. *)
Definition newlines (s : pystr) : nat :=
  length (List.filter (fun c => (c =? 10)%N) s).

Section Clicks.
Context `{UnicodeData} `{Jieba}.

(** What a click on Analyze File runs inside its [try]. *)
Definition analysis (path : pystr) : M AnalysisResult :=
  let* analyzer := FileAnalyzer_init path in analyze_file analyzer 10.

(** What a click on Count Word Frequency runs inside its [try]. *)
Definition word_count (path word : pystr) : M pyobj :=
  let* analyzer := FileAnalyzer_init path in
  count_given_word_frequency analyzer word.
End Clicks.

(** An analyzer on [path], to ask whether the document can be read. *)
Definition reader (path : pystr) : FileAnalyzer :=
  {| file_path := path; stopwords := ∅ |}.

(** * Properties *)

(** ** Facts about strings *)

Lemma endswith_suffix (s suffix : pystr) :
  endswith s suffix = true ↔ suffix `suffix_of` s.
Proof.
  unfold endswith. rewrite andb_true_iff, Nat.leb_le, bool_decide_eq_true.
  split.
  - intros [_ Hd]. exists (take (length s - length suffix)%nat s).
    rewrite <- Hd at 2. symmetry. apply take_drop.
  - intros [k ->]. rewrite length_app. split; [lia|].
    replace (length k + length suffix - length suffix)%nat with (length k) by lia.
    apply drop_app_length.
Qed.

(** ** Facts about the regular expressions *)

Section RegexFacts.
Context `{UnicodeData}.

Lemma scan_One (cs : charset) (s : pystr) (fuel : nat) :
  (length s <= fuel)%nat ->
  scan fuel (One cs) s
  = map (fun c => if in_charset cs c then inl [c] else inr c) s.
Proof.
  revert fuel. induction s as [|c s IH]; intros [|fuel] Hf; simpl in *;
    try reflexivity; try lia.
  destruct (in_charset cs c); f_equal; apply IH; lia.
Qed.

Lemma re_findall_One (cs : charset) (s : pystr) :
  re_findall (One cs) s = map (fun c => [c]) (List.filter (in_charset cs) s).
Proof.
  unfold re_findall. rewrite scan_One by lia.
  induction s as [|c s IH]; [reflexivity|]. cbn.
  destruct (in_charset cs c); cbn; rewrite IH; reflexivity.
Qed.

Lemma re_sub_One (cs : charset) (repl s : pystr) :
  re_sub (One cs) repl s
  = concat (map (fun c => if in_charset cs c then repl else [c]) s).
Proof.
  unfold re_sub. rewrite scan_One by lia. rewrite map_map.
  f_equal. apply map_ext. intros c. destruct (in_charset cs c); reflexivity.
Qed.

Lemma span_set_spec (cs : charset) (s : pystr) :
  s = (span_set cs s).1 ++ (span_set cs s).2
  ∧ forallb (in_charset cs) (span_set cs s).1 = true
  ∧ match (span_set cs s).2 with
    | [] => True
    | c :: _ => in_charset cs c = false
    end.
Proof.
  induction s as [|c s (IH1 & IH2 & IH3)]; simpl; [auto|].
  destruct (in_charset cs c) eqn:Hc.
  - destruct (span_set cs s) as [m r]; simpl in *.
    repeat split; [congruence | rewrite Hc; auto | auto].
  - simpl. auto.
Qed.

Lemma re_fullmatch_OneOrMore (cs : charset) (w : pystr) :
  re_fullmatch (OneOrMore cs) w = true
  ↔ w ≠ [] ∧ forallb (in_charset cs) w = true.
Proof.
  unfold re_fullmatch, re_match.
  destruct (span_set_spec cs w) as (Happ & Hall & Hrest).
  destruct (span_set cs w) as [m r]; simpl in *. subst w.
  destruct m as [|c m]; simpl in *.
  - split; [discriminate|]. intros [Hne Hw].
    destruct r as [|c r]; [congruence|]. simpl in Hw.
    rewrite Hrest in Hw. discriminate.
  - destruct r as [|c' r].
    + split; [|reflexivity]. intros _. rewrite app_nil_r.
      split; [discriminate | exact Hall].
    + split; [discriminate|]. intros [_ Hw].
      apply andb_true_iff in Hw as [_ Hw].
      rewrite forallb_app in Hw. apply andb_true_iff in Hw as [_ Hw].
      simpl in Hw. rewrite Hrest in Hw. discriminate.
Qed.
End RegexFacts.

(** ** Facts about [Counter] *)

Section CounterFacts.
Context {K : Type} `{EqDecision K}.
Implicit Types (l : list K) (c : counter K) (x k : K).

Lemma distinct_snoc l x :
  distinct (l ++ [x])
  = if decide (x ∈ distinct l) then distinct l else distinct l ++ [x].
Proof. unfold distinct. rewrite fold_left_app. reflexivity. Qed.

Lemma elem_of_distinct l x : x ∈ distinct l ↔ x ∈ l.
Proof.
  induction l as [|y l IH] using rev_ind.
  - reflexivity.
  - rewrite distinct_snoc, elem_of_app, list_elem_of_singleton.
    case_decide as Hy; [|rewrite elem_of_app, list_elem_of_singleton]; [|tauto].
    split; [tauto|]. intros [?| ->]; tauto.
Qed.

Lemma NoDup_distinct l : NoDup (distinct l).
Proof.
  induction l as [|y l IH] using rev_ind.
  - constructor.
  - rewrite distinct_snoc. case_decide; [done|].
    apply NoDup_app. split_and!; [done | | apply NoDup_singleton].
    intros x Hx ->%list_elem_of_singleton. done.
Qed.

Lemma distinct_length l : length (distinct l) = length (remove_dups l).
Proof.
  apply Permutation_length, NoDup_Permutation.
  - apply NoDup_distinct.
  - apply NoDup_remove_dups.
  - intros x. by rewrite elem_of_distinct, elem_of_remove_dups.
Qed.

Lemma first_index_lt l x : x ∈ l -> (first_index x l < length l)%nat.
Proof.
  induction l as [|y l IH]; [by intros ?%elem_of_nil|].
  intros Hx. simpl. case_decide; [lia|].
  apply elem_of_cons in Hx as [->|Hx]; [done|]. specialize (IH Hx). lia.
Qed.

Lemma first_index_app_l l l' x :
  x ∈ l -> first_index x (l ++ l') = first_index x l.
Proof.
  induction l as [|y l IH]; [by intros ?%elem_of_nil|].
  intros Hx. simpl. case_decide; [done|].
  apply elem_of_cons in Hx as [->|Hx]; [done|]. by rewrite IH.
Qed.

Lemma first_index_fresh l x :
  x ∉ l -> first_index x (l ++ [x]) = length l.
Proof.
  induction l as [|y l IH]; intros Hx; simpl.
  - by case_decide.
  - rewrite not_elem_of_cons in Hx. destruct Hx as [Hne Hx].
    rewrite decide_False by done. by rewrite IH.
Qed.

Lemma StronglySorted_impl_elem_of {A} (R R' : relation A) (l : list A) :
  (forall a b, a ∈ l -> b ∈ l -> R a b -> R' a b) ->
  StronglySorted R l -> StronglySorted R' l.
Proof.
  induction l as [|a l IH]; intros HR Hs; [constructor|].
  apply StronglySorted_cons in Hs as [Hall Hs].
  apply StronglySorted_cons. split.
  - rewrite Forall_forall in *. intros b Hb.
    apply HR; [apply list_elem_of_here | by apply list_elem_of_further | auto].
  - apply IH; [|done]. intros. apply HR; auto using list_elem_of_further.
Qed.

Lemma distinct_first_seen l :
  StronglySorted (fun a b => (first_index a l < first_index b l)%nat)
                 (distinct l).
Proof.
  induction l as [|y l IH] using rev_ind; [constructor|].
  assert (StronglySorted
            (fun a b => (first_index a (l ++ [y]) < first_index b (l ++ [y]))%nat)
            (distinct l)) as IH'.
  { eapply StronglySorted_impl_elem_of; [|exact IH].
    intros a b Ha Hb Hab. rewrite elem_of_distinct in Ha, Hb. simpl in *.
    rewrite !first_index_app_l by done. done. }
  rewrite distinct_snoc. case_decide as Hy; [done|].
  apply StronglySorted_app_2; [|done|repeat constructor].
  intros a b Ha ->%list_elem_of_singleton.
  rewrite elem_of_distinct in Ha, Hy.
  rewrite first_index_app_l, first_index_fresh by done.
  by apply first_index_lt.
Qed.

Lemma list_count_snoc l x k :
  list_count k (l ++ [x])
  = list_count k l + (if decide (x = k) then 1 else 0).
Proof.
  unfold list_count, len. rewrite List.filter_app, length_app. simpl.
  rewrite Nat2Z.inj_add. f_equal.
  case_bool_decide; case_decide; done.
Qed.

Lemma list_count_nonneg l k : 0 <= list_count k l.
Proof. unfold list_count, len. lia. Qed.

Lemma list_count_pos l k : k ∈ l ↔ 0 < list_count k l.
Proof.
  unfold list_count, len. induction l as [|y l IH]; simpl.
  - split; [by intros ?%elem_of_nil|lia].
  - rewrite elem_of_cons. case_bool_decide; simpl; [|rewrite <- IH].
    + split; [lia|auto].
    + split; [intros [->|]; done | auto].
Qed.

Lemma list_count_absent l k : k ∉ l -> list_count k l = 0.
Proof.
  intros Hk. pose proof (list_count_nonneg l k).
  destruct (decide (0 < list_count k l)) as [Hp|]; [|lia].
  by apply list_count_pos in Hp.
Qed.

Lemma counter_add_tally (f : K -> Z) (d : list K) x :
  NoDup d ->
  counter_add (map (fun k => (k, f k)) d) x
  = if decide (x ∈ d)
    then map (fun k => (k, f k + (if decide (x = k) then 1 else 0))) d
    else map (fun k => (k, f k)) d ++ [(x, 1)].
Proof.
  induction d as [|k d IH]; intros Hnd.
  - destruct (decide (x ∈ [])) as [Hx|_]; [by apply elem_of_nil in Hx|done].
  - apply NoDup_cons in Hnd as [Hk Hnd]. specialize (IH Hnd).
    destruct (decide (x ∈ k :: d)) as [Hx|Hx]; cbn [map counter_add].
    + destruct (decide (k = x)) as [->|Hne].
      * rewrite decide_True by done.
        f_equal. apply map_ext_in. intros k Hin%list_elem_of_In.
        rewrite decide_False by (intros ->; done). f_equal. lia.
      * apply elem_of_cons in Hx as [->|Hx]; [done|].
        rewrite IH, decide_True by done.
        rewrite (decide_False (P:=x = k)) by done.
        f_equal. f_equal. lia.
    + apply not_elem_of_cons in Hx as [Hne Hx].
      rewrite decide_False by done. rewrite IH, decide_False by done. done.
Qed.

(** The items of [Counter(l)]: every distinct element with the number of
    its occurrences, in first-met order. *)
Lemma Counter_items l :
  Counter l = map (fun k => (k, list_count k l)) (distinct l).
Proof.
  induction l as [|x l IH] using rev_ind; [reflexivity|].
  unfold Counter in *. rewrite fold_left_app. simpl. rewrite IH.
  rewrite counter_add_tally by apply NoDup_distinct.
  rewrite distinct_snoc. case_decide as Hx.
  - apply map_ext. intros k. by rewrite list_count_snoc.
  - rewrite map_app. simpl. f_equal.
    + apply map_ext_in. intros k Hk%list_elem_of_In.
      rewrite list_count_snoc. rewrite decide_False; [f_equal; lia|].
      intros ->. done.
    + rewrite list_count_snoc, decide_True by done.
      rewrite list_count_absent; [done|]. by rewrite <- elem_of_distinct.
Qed.
End CounterFacts.

(** ** Facts about [most_common] *)

Section SortFacts.
Context {K : Type} `{EqDecision K}.
Implicit Types (l : list K) (c s : list (K * Z)) (x : K * Z).

Lemma insert_desc_perm x s : insert_desc x s ≡ₚ x :: s.
Proof.
  induction s as [|y s IH]; simpl; [done|].
  destruct (x.2 <? y.2); [|done].
  rewrite IH. apply Permutation_swap.
Qed.

Lemma sorted_reverse_perm c : sorted_reverse c ≡ₚ c.
Proof.
  induction c as [|x c IH]; simpl; [done|].
  by rewrite insert_desc_perm, IH.
Qed.

Section Stable.
Variable earlier : relation (K * Z).

Lemma insert_desc_sorted x s :
  Forall (earlier x) s ->
  StronglySorted (ranked_by earlier) s -> StronglySorted (ranked_by earlier) (insert_desc x s).
Proof.
  induction s as [|y s IH]; intros Hx Hs; simpl.
  - repeat constructor.
  - apply Forall_cons in Hx as [Hxy Hx].
    apply StronglySorted_cons in Hs as [Hy Hs].
    destruct (x.2 <? y.2) eqn:Hlt.
    + apply Z.ltb_lt in Hlt. apply StronglySorted_cons. split; [|auto].
      rewrite Forall_forall. intros z Hz.
      rewrite insert_desc_perm in Hz. apply elem_of_cons in Hz as [->|Hz].
      * left. done.
      * rewrite Forall_forall in Hy. auto.
    + apply Z.ltb_ge in Hlt.
      apply StronglySorted_cons. split.
      * rewrite Forall_forall in *. intros z [->|Hz]%elem_of_cons.
        -- destruct (decide (y.2 = x.2)); [right; by split|left; lia].
        -- specialize (Hy z Hz). specialize (Hx z Hz).
           destruct Hy as [Hy|[Hy _]];
             [left; lia|].
           destruct (decide (y.2 = x.2)); [right; split; [congruence|done]|left; lia].
      * apply StronglySorted_cons. by split.
Qed.

Lemma sorted_reverse_stable c :
  StronglySorted earlier c -> StronglySorted (ranked_by earlier) (sorted_reverse c).
Proof.
  induction c as [|x c IH]; intros Hc; simpl; [constructor|].
  apply StronglySorted_cons in Hc as [Hx Hc].
  apply insert_desc_sorted; [|auto].
  rewrite Forall_forall in *. intros z Hz.
  rewrite sorted_reverse_perm in Hz. auto.
Qed.
End Stable.

(** What [Counter(l).most_common(k)] is. *)
Lemma most_common_Counter l (k : Z) :
  let res := most_common (Counter l) k in
  length res = min (Z.to_nat k) (length (remove_dups l))
  ∧ StronglySorted (rank l) res
  ∧ NoDup res.*1
  ∧ (forall w n, (w, n) ∈ res -> w ∈ l ∧ n = list_count w l)
  ∧ (forall w, w ∈ l -> w ∉ res.*1 ->
       forall a, a ∈ res -> rank l a (w, list_count w l)).
Proof.
  intros res. subst res. unfold most_common.
  set (n := Z.to_nat k). set (s := sorted_reverse (Counter l)).
  assert (Hperm : s ≡ₚ map (fun w => (w, list_count w l)) (distinct l)).
  { subst s. rewrite sorted_reverse_perm. by rewrite Counter_items. }
  assert (Hin : forall w m, (w, m) ∈ s ↔ w ∈ l ∧ m = list_count w l).
  { intros w m. rewrite Hperm. rewrite list_elem_of_In, in_map_iff.
    split.
    - intros (w' & [= -> <-] & Hw). rewrite <- list_elem_of_In in Hw.
      rewrite elem_of_distinct in Hw. done.
    - intros [Hw ->]. exists w. split; [done|].
      rewrite <- list_elem_of_In. by rewrite elem_of_distinct. }
  assert (Hkeys : s.*1 ≡ₚ distinct l).
  { rewrite Hperm. rewrite <- list_fmap_compose.
    by rewrite list_fmap_id. }
  assert (Hs : StronglySorted (rank l) s).
  { subst s. apply (sorted_reverse_stable
      (fun a b => (first_index a.1 l < first_index b.1 l)%nat)).
    rewrite Counter_items.
    change (StronglySorted
              (fun a b : K * Z => (first_index a.1 l < first_index b.1 l)%nat)
              ((fun w => (w, list_count w l)) <$> distinct l)).
    eapply StronglySorted_fmap; [|apply distinct_first_seen].
    auto. }
  assert (Hnd : NoDup s.*1).
  { rewrite Hkeys. apply NoDup_distinct. }
  rewrite <- (take_drop n s) in Hs, Hnd.
  rewrite fmap_app in Hnd. apply NoDup_app in Hnd as (Hnd & Hdisj & _).
  split_and!.
  - rewrite length_take. f_equal.
    rewrite <- distinct_length, <- Hkeys. by rewrite length_fmap.
  - by apply StronglySorted_app_1_l in Hs.
  - done.
  - intros w m Hw. apply Hin. apply elem_of_take in Hw as (i & Hi & _).
    by eapply list_elem_of_lookup_2.
  - intros w Hw Hout a Ha.
    eapply StronglySorted_app_1_elem_of; [exact Hs|exact Ha|].
    assert ((w, list_count w l) ∈ s) as Hws by (by apply Hin).
    rewrite <- (take_drop n s) in Hws. apply elem_of_app in Hws as [Hws|]; [|done].
    exfalso. apply Hout. apply list_elem_of_fmap. by exists (w, list_count w l).
Qed.
End SortFacts.

(** ** Running the methods *)

Section RunFacts.
Context `{UnicodeData} `{Jieba}.
Implicit Types (self : FileAnalyzer) (w : world).

Lemma bind_run {A B} (m : M A) (f : A -> M B) w :
  bind m f w
  = match m w with
    | (Ok a, w') => f a w'
    | (Raise e, w') => (Raise e, w')
    end.
Proof. reflexivity. Qed.

(** Reading the pages changes nothing in the world, and fails only with
    the library's own exception. *)
Lemma pages_run (pages : list (outcome pystr)) (acc : pystr) :
  exists r,
    (forall w,
       for_each pages (fun page text => let* t := lift page in ret (text ++ t))
                acc w = (r, w))
    ∧ forall m, r ≠ Raise (ValueError m).
Proof.
  revert acc. induction pages as [|page pages IH]; intros acc; simpl.
  - exists (Ok acc). split; [reflexivity | discriminate].
  - destruct page as [t|m']; unfold bind; simpl.
    + apply IH.
    + exists (Raise (ExtractionFailure m')). split; [reflexivity | discriminate].
Qed.

Lemma remove_first_last (path : pystr) (l : list pystr) :
  rev (remove_first path (rev (l ++ [path]))) = l.
Proof.
  rewrite rev_app_distr. simpl. rewrite decide_True by reflexivity.
  apply rev_involutive.
Qed.

(** A run of the PDF extraction: the document is finalised when the method
    returns, and is still open when a page makes it raise. *)
Lemma extract_pdf_run self w :
  _extract_text_from_pdf self w
  = match fitz_documents w (file_path self) with
    | Failed m =>
        (Raise (ExtractionFailure m),
         with_files (open_documents w) (accessed w ++ [file_path self]) w)
    | Done pages =>
        match
          (for_each pages
             (fun page text => let* t := lift page in ret (text ++ t)) [] w).1
        with
        | Ok text =>
            (Ok text,
             with_files (open_documents w) (accessed w ++ [file_path self]) w)
        | Raise e =>
            (Raise e,
             with_files (open_documents w ++ [file_path self])
                        (accessed w ++ [file_path self]) w)
        end
    end.
Proof.
  unfold _extract_text_from_pdf. rewrite bind_run. unfold fitz_open.
  destruct (fitz_documents w (file_path self)) as [pages|m]; [|reflexivity].
  rewrite bind_run. destruct (pages_run pages []) as (r & Hr & _).
  rewrite !Hr. destruct r as [text|e]; [|reflexivity].
  unfold fitz_finalise, bind, modify, ret. simpl.
  by rewrite remove_first_last.
Qed.

(** Reading the pages fails exactly when one of them cannot be read. *)
Lemma pages_fail (pages : list (outcome pystr)) (acc : pystr) w :
  (exists m, Failed m ∈ pages)
  ↔ exists e,
      (for_each pages (fun page text => let* t := lift page in ret (text ++ t))
                acc w).1 = Raise e.
Proof.
  revert acc. induction pages as [|page pages IH]; intros acc; simpl.
  - split; [intros [m Hm]; by apply elem_of_nil in Hm | intros [e [=]]].
  - destruct page as [t|m']; unfold bind at 1; simpl.
    + rewrite <- IH. split; intros [m Hm]; exists m.
      * apply elem_of_cons in Hm as [[=]|Hm]; exact Hm.
      * by apply list_elem_of_further.
    + split; [intros _; by eexists | intros _; exists m'; apply list_elem_of_here].
Qed.

Lemma extract_pdf_world self w :
  (_extract_text_from_pdf self w).2
  = with_files
      match fitz_documents w (file_path self),
            (_extract_text_from_pdf self w).1 with
      | Done _, Raise _ => open_documents w ++ [file_path self]
      | _, _ => open_documents w
      end
      (accessed w ++ [file_path self]) w.
Proof.
  rewrite extract_pdf_run.
  destruct (fitz_documents w (file_path self)) as [pages|m]; [|reflexivity].
  by destruct (for_each pages _ [] w).1.
Qed.

Lemma extract_pdf_not_ValueError self w m :
  (_extract_text_from_pdf self w).1 ≠ Raise (ValueError m).
Proof.
  rewrite extract_pdf_run.
  destruct (fitz_documents w (file_path self)) as [pages|m']; [|discriminate].
  destruct (pages_run pages []) as (r & Hr & Hne).
  rewrite Hr. simpl. destruct r as [text|e]; [discriminate|apply Hne].
Qed.

Lemma extract_docx_world self w :
  (_extract_text_from_docx self w).2
  = with_files (open_documents w) (accessed w ++ [file_path self]) w.
Proof.
  unfold _extract_text_from_docx, bind, docx_Document.
  destruct (docx_documents w (file_path self)); reflexivity.
Qed.

Lemma extract_docx_not_ValueError self w m :
  (_extract_text_from_docx self w).1 ≠ Raise (ValueError m).
Proof.
  unfold _extract_text_from_docx, bind, docx_Document.
  destruct (docx_documents w (file_path self)); discriminate.
Qed.

Lemma extract_unsupported self w :
  supported (file_path self) = false ->
  extract self w
  = (Raise (ValueError unsupported_message),
     (logger_error (lit "Unsupported file format") None w).2).
Proof.
  unfold supported, extract. intros [-> ->]%orb_false_iff. reflexivity.
Qed.

Lemma extract_supported self w m :
  supported (file_path self) = true ->
  (extract self w).1 ≠ Raise (ValueError m).
Proof.
  unfold supported, extract. intros Hs.
  destruct (endswith (file_path self) (lit ".pdf")).
  - apply extract_pdf_not_ValueError.
  - rewrite orb_false_l in Hs. rewrite Hs. apply extract_docx_not_ValueError.
Qed.

(** A logging call returns, and touches the logger only. *)
Lemma logger_log_run lvl m a w :
  exists w', logger_log lvl m a w = (Ok tt, w')
    ∧ open_documents w' = open_documents w ∧ accessed w' = accessed w
    ∧ stdout w' = stdout w.
Proof.
  unfold logger_log, modify. eexists. split; [reflexivity|].
  destruct (getEffectiveLevel w <=? lvl); auto.
Qed.

Lemma analyze_file_raise self k w e w1 :
  extract self w = (Raise e, w1) -> analyze_file self k w = (Raise e, w1).
Proof. intros He. unfold analyze_file, bind. rewrite He. reflexivity. Qed.

Lemma analyze_file_run self k w text w1 :
  extract self w = (Ok text, w1) ->
  exists w',
    analyze_file self k w
    = (Ok {| Chinese_Words :=
               most_common (_word_frequency (chinese_candidates self text)) k;
             Numbers :=
               most_common (_word_frequency (number_candidates text)) k;
             Special_Characters :=
               most_common (_word_frequency (special_candidates text)) k |},
       w')
    ∧ open_documents w' = open_documents w1 ∧ accessed w' = accessed w1
    ∧ stdout w' = stdout w1.
Proof.
  intros He. unfold analyze_file, bind at 1. rewrite He.
  unfold logger_info.
  repeat match goal with
  | |- context [bind (logger_log ?l ?m ?a) ?f ?w] =>
      let w2 := fresh "w" in
      let E := fresh "E" in
      destruct (logger_log_run l m a w) as (w2 & E & ? & ? & ?);
      unfold bind at 1; rewrite E
  end.
  eexists. split; [reflexivity|]. split_and!; congruence.
Qed.

Lemma analyze_file_inv self k w res w' :
  analyze_file self k w = (Ok res, w') ->
  exists text w1,
    extract self w = (Ok text, w1)
    ∧ Chinese_Words res
      = most_common (_word_frequency (chinese_candidates self text)) k
    ∧ Numbers res = most_common (_word_frequency (number_candidates text)) k
    ∧ Special_Characters res
      = most_common (_word_frequency (special_candidates text)) k.
Proof.
  intros Hrun. destruct (extract self w) as [[text|e] w1] eqn:He.
  - destruct (analyze_file_run self k w text w1 He) as (w2 & Hrun' & _).
    rewrite Hrun in Hrun'. injection Hrun' as -> _.
    exists text, w1. auto.
  - rewrite (analyze_file_raise _ _ _ _ _ He) in Hrun. discriminate.
Qed.

Lemma count_given_word_frequency_raise self word w e w1 :
  extract self w = (Raise e, w1) ->
  count_given_word_frequency self word w = (Raise e, w1).
Proof.
  intros He. unfold count_given_word_frequency, bind. rewrite He. reflexivity.
Qed.

Lemma count_given_word_frequency_run self word w text w1 :
  extract self w = (Ok text, w1) ->
  count_given_word_frequency self word w
  = (Ok PyNone,
     with_stdout
       (stdout w1
        ++ [[PyStr (lit "The frequency of the given word is: ");
             PyInt (list_count word (counted_tokens text))]]) w1).
Proof.
  intros He. unfold count_given_word_frequency, bind. rewrite He. reflexivity.
Qed.

(** The method returns nothing but [None]. *)
Lemma count_given_word_frequency_value self word w (v : pyobj) w' :
  count_given_word_frequency self word w = (Ok v, w') -> v = PyNone.
Proof.
  destruct (extract self w) as [[text|e] w1] eqn:He.
  - rewrite (count_given_word_frequency_run self word w text w1 He).
    by intros [= <- _].
  - by rewrite (count_given_word_frequency_raise self word w e w1 He).
Qed.

(** The substitution puts one space in the place of every punctuation
    mark. *)
Lemma punctuation_replaced (text : pystr) :
  re_sub punctuation_pattern (lit " ") text
  = map (fun c => if in_charset punctuation_marks c then 32%N else c) text.
Proof.
  unfold punctuation_pattern. rewrite re_sub_One.
  change (lit " ") with [32%N].
  induction text as [|c text IH]; [reflexivity|].
  cbn [map concat]. rewrite IH.
  destruct (in_charset punctuation_marks c); reflexivity.
Qed.

(** What [count_given_word_frequency] prints: the number of tokens equal to
    the word, which is not negative, and zero when no token is the word. *)
Lemma count_given_word_frequency_prints self word w text w1 :
  extract self w = (Ok text, w1) ->
  exists n,
    stdout (count_given_word_frequency self word w).2
    = stdout w1
      ++ [[PyStr (lit "The frequency of the given word is: "); PyInt n]]
    ∧ n = list_count word (counted_tokens text)
    ∧ 0 <= n
    ∧ (word ∉ counted_tokens text -> n = 0).
Proof.
  intros He. rewrite (count_given_word_frequency_run self word w text w1 He).
  eexists. split_and!; [reflexivity | reflexivity | apply list_count_nonneg |].
  apply list_count_absent.
Qed.
End RunFacts.

(** ** The stopword loader *)

Section LoaderFacts.
Implicit Types (sw : gset pystr) (w : world).

(** A loop that only adds to the set: what it adds is what its iterations
    add. *)
Lemma for_each_adds {A} (xs : list A) (body : A -> gset pystr -> M (gset pystr))
    (adds : A -> pystr -> Prop) :
  (forall x sw w, exists S w',
      body x sw w = (Ok S, w') ∧ forall y, y ∈ S ↔ y ∈ sw ∨ adds x y) ->
  forall sw w, exists S w',
    for_each xs body sw w = (Ok S, w')
    ∧ forall y, y ∈ S ↔ y ∈ sw ∨ exists x, x ∈ xs ∧ adds x y.
Proof.
  intros Hbody. induction xs as [|x xs IH]; intros sw w; simpl.
  - exists sw, w. split; [reflexivity|]. intros y. split; [auto|].
    intros [?|(x & Hx & _)]; [done|]. by apply elem_of_nil in Hx.
  - rewrite bind_run.
    destruct (Hbody x sw w) as (S1 & w1 & -> & HS1).
    destruct (IH S1 w1) as (S2 & w2 & -> & HS2).
    exists S2, w2. split; [reflexivity|]. intros y.
    rewrite HS2, HS1. split.
    + intros [[?|?]|(x0 & ? & ?)]; eauto using list_elem_of_here,
        list_elem_of_further.
    + intros [?|(x0 & [->|?]%elem_of_cons & ?)]; eauto.
Qed.

Lemma filenames_spec (entries : list fsnode) name content :
  (name, content) ∈ filenames entries ↔ FsFile name content ∈ entries.
Proof.
  unfold filenames. rewrite list_elem_of_omap. split.
  - intros ([n c|d sub] & Hin & Heq); [|discriminate].
    by injection Heq as -> ->.
  - intros Hin. by exists (FsFile name content).
Qed.

Lemma os_walk_node_files (n : fsnode) parent name content :
  (exists root dirs files,
      (root, dirs, files) ∈ os_walk_node parent n ∧ (name, content) ∈ files)
  ↔ exists d sub, n = FsDir d sub ∧ tree_file sub name content.
Proof.
  revert parent. induction n as [fname c|d sub IH] using fsnode_ind;
    intros parent; simpl.
  - split.
    + intros (? & ? & ? & Hin & _). by apply elem_of_nil in Hin.
    + intros (? & ? & [=] & _).
  - split.
    + intros (root & dirs & files & Hin & Hf). exists d, sub. split; [done|].
      apply elem_of_cons in Hin as [[= -> -> ->]|Hin].
      * apply tree_file_here. by apply filenames_spec.
      * apply list_elem_of_In, in_flat_map in Hin as (n & Hn & Hin).
        apply list_elem_of_In in Hn, Hin.
        rewrite Forall_forall in IH.
        destruct (proj1 (IH n Hn (os_path_join parent d)))
          as (d' & sub' & -> & Ht); [eauto|].
        by eapply tree_file_below.
    + intros (? & ? & [= <- <-] & Ht).
      inversion Ht as [? ? ? Hhere|? d' sub' ? ? Hd Hsub]; subst.
      * eexists _, _, _. split; [apply list_elem_of_here|].
        by apply filenames_spec.
      * rewrite Forall_forall in IH.
        destruct (proj2 (IH _ Hd (os_path_join parent d))) as
          (root & dirs & files & Hin & Hf); [eauto|].
        exists root, dirs, files. split; [|done].
        apply list_elem_of_further, list_elem_of_In, in_flat_map.
        exists (FsDir d' sub'). split; by apply list_elem_of_In.
Qed.

Lemma os_walk_files (entries : list fsnode) top name content :
  (exists root dirs files,
      (root, dirs, files) ∈ os_walk top (Some entries)
      ∧ (name, content) ∈ files)
  ↔ tree_file entries name content.
Proof.
  simpl. split.
  - intros (root & dirs & files & Hin & Hf).
    apply elem_of_cons in Hin as [[= -> -> ->]|Hin].
    + apply tree_file_here. by apply filenames_spec.
    + apply list_elem_of_In, in_flat_map in Hin as (n & Hn' & Hin).
      apply list_elem_of_In in Hn', Hin.
      destruct (proj1 (os_walk_node_files n top name content))
        as (d' & sub' & -> & Ht); [eauto|].
      by eapply tree_file_below.
  - intros Ht. inversion Ht as [? ? ? Hhere|? d' sub' ? ? Hd Hsub]; subst.
    + eexists _, _, _. split; [apply list_elem_of_here|].
      by apply filenames_spec.
    + destruct (proj2 (os_walk_node_files (FsDir d' sub') top name content))
        as (root & dirs & files & Hin & Hf); [eauto|].
      exists root, dirs, files. split; [|done].
      apply list_elem_of_further, list_elem_of_In, in_flat_map.
      exists (FsDir d' sub'). split; by apply list_elem_of_In.
Qed.

(** The innermost loop: [self.stopwords.add(line.strip())] per line. *)
Lemma add_lines_run (lines : list pystr) sw w :
  exists S w',
    for_each lines (fun line sw => ret ({[ strip line ]} ∪ sw)) sw w
    = (Ok S, w')
    ∧ forall y, y ∈ S ↔ y ∈ sw ∨ exists line, line ∈ lines ∧ y = strip line.
Proof.
  apply (for_each_adds lines _ (fun line y => y = strip line)).
  intros line sw' w'. eexists _, _. split; [reflexivity|].
  intros y. rewrite elem_of_union, elem_of_singleton. tauto.
Qed.

(** What constructing an analyzer gives: the object is always returned,
    and its stopword set holds the stripped lines of the [.txt] files at
    any depth below the directory, blank lines included. *)
Lemma FileAnalyzer_init_run (path : pystr) w :
  exists S w',
    FileAnalyzer_init path w
    = (Ok {| file_path := path; stopwords := S |}, w')
    ∧ forall y, y ∈ S ↔
        exists entries name content line,
          stopwords_dir w = Some entries
          ∧ tree_file entries name content
          ∧ endswith name (lit ".txt") = true
          ∧ line ∈ readlines_from [] content
          ∧ y = strip line.
Proof.
  unfold FileAnalyzer_init.
  rewrite bind_run. unfold logger_setLevel at 1, modify at 1.
  rewrite bind_run. unfold gets at 1.
  rewrite bind_run. unfold logger_addHandler at 1, modify at 1.
  rewrite bind_run. unfold gets at 1.
  rewrite bind_run.
  cbn [localtime stopwords_dir logger_handlers logger_level log_files
       open_documents accessed with_logger with_files].
  match goal with
  | |- context [for_each ?xs ?body ?sw0 ?w0] =>
      destruct (for_each_adds xs body
        (fun '(root, dirs, files) y =>
           exists name content line,
             (name, content) ∈ files
             ∧ endswith name (lit ".txt") = true
             ∧ line ∈ readlines_from [] content
             ∧ y = strip line)) with (sw := sw0) (w := w0)
        as (S & w' & Hrun & HS)
  end.
  - intros [[root dirs] files] sw1 w1.
    destruct (for_each_adds files
      (fun '(file, content) sw =>
         if negb (endswith file (lit ".txt")) then ret sw
         else
           let* lines := open_lines (os_path_join root file) content in
           for_each lines (fun line sw => ret ({[ strip line ]} ∪ sw)) sw)
      (fun '(file, content) y =>
         endswith file (lit ".txt") = true
         ∧ exists line, line ∈ readlines_from [] content ∧ y = strip line))
      with (sw := sw1) (w := w1) as (S & w' & Hrun & HS).
    + intros [file content] sw2 w2.
      destruct (endswith file (lit ".txt")) eqn:Hext; simpl.
      * rewrite bind_run. unfold open_lines at 1.
        destruct (add_lines_run (readlines_from [] content) sw2
          (with_files (open_documents w2)
             (accessed w2 ++ [os_path_join root file]) w2))
          as (S & w' & -> & HS).
        exists S, w'. split; [reflexivity|]. intros y. rewrite HS. tauto.
      * exists sw2, w2. split; [reflexivity|]. intros y.
        split; [auto|]. intros [?|[? _]]; [done|discriminate].
    + exists S, w'. split; [exact Hrun|]. intros y. rewrite HS.
      split.
      * intros [?|([file content] & Hin & Hext & line & Hl & ->)]; [auto|].
        right. eauto 10.
      * intros [?|(file & content & line & Hin & Hext & Hl & ->)]; [auto|].
        right. exists (file, content). eauto.
  - rewrite Hrun. exists S, w'. split; [reflexivity|].
    intros y. rewrite HS. split.
    + intros [Hy|([[root dirs] files] & Hin & name & content & line
                  & Hf & Hext & Hl & ->)]; [by apply elem_of_empty in Hy|].
      destruct (stopwords_dir w) as [entries|] eqn:Hdir;
        [|by apply elem_of_nil in Hin].
      exists entries, name, content, line. split_and!; try done.
      apply (os_walk_files entries (lit "stopwords")). eauto.
    + intros (entries & name & content & line & Hdir & Ht & Hext & Hl & ->).
      right. rewrite Hdir.
      apply (os_walk_files entries (lit "stopwords")) in Ht
        as (root & dirs & files & Hin & Hf).
      exists (root, dirs, files). split; [done|]. eauto 10.
Qed.
End LoaderFacts.

(** ** The character classes of [analyze_file] *)

Lemma List_filter_Prop {A} (f : A -> bool) (P : A -> Prop)
    `{!forall x, Decision (P x)} (l : list A) :
  (forall x, f x = true ↔ P x) -> List.filter f l = filter P l.
Proof.
  intros Hf. induction l as [|x l IH]; [reflexivity|]. simpl.
  rewrite filter_cons. destruct (f x) eqn:Hx.
  - rewrite decide_True by (by apply Hf). by rewrite IH.
  - rewrite decide_False; [done|]. intros HP%Hf. congruence.
Qed.

Section ClassFacts.
Context `{UnicodeData}.

Lemma in_number_set (c : char) :
  in_charset {| negated := false; items := [ClassD] |} c
  = Py_UNICODE_ISDECIMAL c.
Proof. unfold in_charset. simpl. by rewrite orb_false_r. Qed.

Lemma in_special_set (c : char) :
  in_charset {| negated := true; items := [ClassW; ClassS] |} c
  = negb (is_word c || Py_UNICODE_ISSPACE c).
Proof. unfold in_charset. simpl. by rewrite orb_false_r. Qed.

Lemma in_chinese_set (c : char) :
  in_charset {| negated := false; items := [Range 0x4e00 0x9fff] |} c = true
  ↔ (0x4e00 <= c <= 0x9fff)%N.
Proof.
  unfold in_charset. cbn [negated items existsb item_matches xorb].
  rewrite orb_false_r, andb_true_iff, !N.leb_le. done.
Qed.

(** A decimal digit is a word character. *)
Lemma decimal_is_word (c : char) :
  Py_UNICODE_ISDECIMAL c = true -> is_word c = true.
Proof.
  intros Hd. unfold is_word, Py_UNICODE_ISALNUM. rewrite Hd.
  by rewrite orb_true_r.
Qed.

Lemma number_candidates_spec (text : pystr) :
  number_candidates text
  = map (fun c => [c]) (filter (fun c => Py_UNICODE_ISDECIMAL c = true) text).
Proof.
  unfold number_candidates, number_pattern. rewrite re_findall_One. f_equal.
  apply List_filter_Prop. intros c. by rewrite in_number_set.
Qed.

Lemma special_candidates_spec (text : pystr) :
  special_candidates text
  = map (fun c => [c])
        (filter (fun c => is_word c = false ∧ Py_UNICODE_ISSPACE c = false)
                text).
Proof.
  unfold special_candidates, special_char_pattern. rewrite re_findall_One.
  f_equal. apply List_filter_Prop. intros c. rewrite in_special_set.
  rewrite negb_true_iff, orb_false_iff. done.
Qed.

Lemma fullmatch_chinese (t : pystr) :
  re_fullmatch chinese_char_pattern t = true
  ↔ t ≠ [] ∧ Forall (fun c => (0x4e00 <= c <= 0x9fff)%N) t.
Proof.
  unfold chinese_char_pattern. rewrite re_fullmatch_OneOrMore.
  rewrite forallb_forall, Forall_forall.
  split; intros [Hne Hall]; (split; [done|]); intros c Hc.
  - apply in_chinese_set, Hall. by apply list_elem_of_In.
  - apply in_chinese_set, Hall. by apply list_elem_of_In.
Qed.
End ClassFacts.

(** ** What a run depends on, and what it leaves alone *)

Section FrameFacts.
Context `{UnicodeData} `{Jieba}.
Implicit Types (self : FileAnalyzer) (w : world).

Lemma extract_result_documents self w1 w2 :
  same_documents w1 w2 -> (extract self w1).1 = (extract self w2).1.
Proof.
  intros [Hf Hd]. unfold extract.
  destruct (endswith (file_path self) (lit ".pdf")).
  - rewrite !extract_pdf_run.
    rewrite Hf. destruct (fitz_documents w2 (file_path self)) as [pages|m];
      [|reflexivity].
    destruct (pages_run pages []) as (r & Hr & _). rewrite !Hr.
    by destruct r.
  - destruct (endswith (file_path self) (lit ".docx")); [|reflexivity].
    unfold _extract_text_from_docx. rewrite !bind_run. unfold docx_Document.
    rewrite Hd. by destruct (docx_documents w2 (file_path self)).
Qed.

Lemma logger_log_documents lvl m a w :
  same_documents (logger_log lvl m a w).2 w.
Proof.
  unfold logger_log, modify. simpl.
  by destruct (getEffectiveLevel w <=? lvl).
Qed.

Lemma extract_documents self w : same_documents (extract self w).2 w.
Proof.
  unfold extract. destruct (endswith (file_path self) (lit ".pdf")).
  - by rewrite extract_pdf_world.
  - destruct (endswith (file_path self) (lit ".docx")).
    + by rewrite extract_docx_world.
    + apply (logger_log_documents ERROR).
Qed.

Lemma analyze_file_documents self k w :
  same_documents (analyze_file self k w).2 w.
Proof.
  pose proof (extract_documents self w) as [Hf Hd].
  unfold analyze_file. rewrite bind_run.
  destruct (extract self w) as [[text|e] w1]; [|by split].
  unfold same_documents, logger_info, logger_log, modify, bind. simpl in *.
  repeat match goal with
         | |- context [if ?b then _ else _] => destruct b; simpl
         end; by split.
Qed.
End FrameFacts.

(** * The claims of the specification *)

Lemma supported_suffix (path : pystr) :
  supported path = true
  ↔ lit ".pdf" `suffix_of` path ∨ lit ".docx" `suffix_of` path.
Proof.
  unfold supported. by rewrite orb_true_iff, !endswith_suffix.
Qed.

(** The match is case-sensitive. *)
Example supported_upper_case : supported (lit "REPORT.PDF") = false.
Proof. reflexivity. Qed.

Section Claims.
Context `{UnicodeData} `{Jieba}.
Implicit Types (self : FileAnalyzer) (w : world).

(** C2.  When the path ends neither in [.pdf] nor in [.docx], both
    [analyze_file] and [count_given_word_frequency] raise the
    [ValueError] whose message names [.pdf] and [.docx], after logging
    and without opening any file; when the path ends in one of the two,
    neither method raises that error. *)
Theorem unsupported_format_raises self (k : Z) (word : pystr) w :
  (supported (file_path self) = false ->
     let w_err := (logger_error (lit "Unsupported file format") None w).2 in
     analyze_file self k w = (Raise (ValueError unsupported_message), w_err)
     ∧ count_given_word_frequency self word w
       = (Raise (ValueError unsupported_message), w_err)
     ∧ accessed w_err = accessed w
     ∧ open_documents w_err = open_documents w
     ∧ contains unsupported_message (lit ".pdf") = true
     ∧ contains unsupported_message (lit ".docx") = true)
  ∧ (supported (file_path self) = true ->
     forall m,
       (analyze_file self k w).1 ≠ Raise (ValueError m)
       ∧ (count_given_word_frequency self word w).1 ≠ Raise (ValueError m)).
Proof.
  split.
  - intros Hu w_err. pose proof (extract_unsupported self w Hu) as He.
    split_and!.
    + by apply analyze_file_raise.
    + by apply count_given_word_frequency_raise.
    + subst w_err. destruct (logger_log_run ERROR (lit "Unsupported file format")
        None w) as (w' & E & _ & Ha & _). unfold logger_error. by rewrite E.
    + subst w_err. destruct (logger_log_run ERROR (lit "Unsupported file format")
        None w) as (w' & E & Ho & _). unfold logger_error. by rewrite E.
    + reflexivity.
    + reflexivity.
  - intros Hs m. pose proof (extract_supported self w m Hs) as Hne.
    destruct (extract self w) as [[text|e] w1] eqn:He.
    + destruct (analyze_file_run self k w text w1 He) as (w' & -> & _).
      rewrite (count_given_word_frequency_run self word w text w1 He).
      split; discriminate.
    + rewrite (analyze_file_raise self k w e w1 He).
      rewrite (count_given_word_frequency_raise self word w e w1 He).
      simpl in *. split; intros [= ->]; by apply Hne.
Qed.

(** C3, as the code has it.  Over a directory of text files, constructing
    an analyzer returns, and the stopword set holds exactly the stripped
    lines of the files ending in [.txt] at any depth below [stopwords], the
    empty string among them when a line is blank; without the directory
    the constructor returns as well and the set is empty. *)
Theorem stopword_loader_adds_every_line (path : pystr) w :
  exists a w',
    FileAnalyzer_init path w = (Ok a, w')
    ∧ file_path a = path
    ∧ match stopwords_dir w with
      | None => stopwords a = ∅
      | Some entries =>
          forall y, y ∈ stopwords a ↔
            exists name content line,
              tree_file entries name content
              ∧ endswith name (lit ".txt") = true
              ∧ line ∈ readlines_from [] content
              ∧ y = strip line
      end.
Proof.
  destruct (FileAnalyzer_init_run path w) as (S & w' & Hrun & HS).
  eexists _, w'. split; [exact Hrun|]. split; [reflexivity|]. simpl.
  destruct (stopwords_dir w) as [entries|].
  - intros y. rewrite HS. split.
    + intros (? & name & content & line & [= <-] & ?). eauto.
    + intros (name & content & line & ?). eauto 10.
  - apply leibniz_equiv. intros y. rewrite HS. split.
    + intros (? & ? & ? & ? & [=] & _).
    + by intros ?%elem_of_empty.
Qed.

(** C4.  [_remove_stopwords] keeps, in order, exactly the tokens longer
    than one character that are not in the stopword set; [analyze_file]
    applies it to the output of [jieba.cut] before the keyword extraction;
    [count_given_word_frequency] does not depend on the stopword set. *)
Theorem stopword_filter_paths self (k : Z) (word : pystr) w :
  (forall tokens,
     _remove_stopwords self tokens
     = filter (fun x => 1 < len x ∧ x ∉ stopwords self) tokens)
  ∧ (forall text w1,
       extract self w = (Ok text, w1) ->
       exists res w',
         analyze_file self k w = (Ok res, w')
         ∧ Chinese_Words res
           = most_common
               (Counter
                  (List.filter (re_fullmatch chinese_char_pattern)
                     (jieba_extract_tags
                        (str_join (lit " ")
                           (_remove_stopwords self (jieba_cut text)))
                        1000)))
               k)
  ∧ (forall other : gset pystr,
       count_given_word_frequency
         {| file_path := file_path self; stopwords := other |} word w
       = count_given_word_frequency self word w).
Proof.
  split_and!.
  - intros tokens. unfold _remove_stopwords. apply List_filter_Prop.
    intros x. rewrite andb_true_iff, negb_true_iff, Z.ltb_lt,
      bool_decide_eq_false. done.
  - intros text w1 He.
    destruct (analyze_file_run self k w text w1 He) as (w' & Hrun & _).
    eexists _, w'. split; [exact Hrun|]. reflexivity.
  - intros other. reflexivity.
Qed.

(** C5.  Once the text is extracted, [analyze_file] returns the top-K
    views of three candidate lists: the keyword tokens (extracted from the
    segmented and stopword-filtered text) that consist, from end to end, of
    one or more characters in U+4E00..U+9FFF; one single-character string
    per decimal digit of the raw text; one single-character string per
    character of the raw text that is neither a word character nor
    whitespace. *)
Theorem candidate_lists self (k : Z) w (text : pystr) w1 :
  extract self w = (Ok text, w1) ->
  exists w',
    analyze_file self k w
    = (Ok {| Chinese_Words :=
               most_common (Counter (chinese_candidates self text)) k;
             Numbers := most_common (Counter (number_candidates text)) k;
             Special_Characters :=
               most_common (Counter (special_candidates text)) k |}, w')
    ∧ chinese_candidates self text
      = filter (fun t => t ≠ [] ∧ Forall (fun c => (0x4e00 <= c <= 0x9fff)%N) t)
          (jieba_extract_tags
             (str_join (lit " ") (_remove_stopwords self (jieba_cut text)))
             1000)
    ∧ number_candidates text
      = map (fun c => [c])
          (filter (fun c => Py_UNICODE_ISDECIMAL c = true) text)
    ∧ special_candidates text
      = map (fun c => [c])
          (filter (fun c => is_word c = false ∧ Py_UNICODE_ISSPACE c = false)
             text).
Proof.
  intros He. destruct (analyze_file_run self k w text w1 He) as (w' & Hrun & _).
  exists w'. split_and!.
  - exact Hrun.
  - unfold chinese_candidates, keyword_tokens. apply List_filter_Prop.
    apply fullmatch_chinese.
  - apply number_candidates_spec.
  - apply special_candidates_spec.
Qed.

(** C6.  The top-K view [Counter(l).most_common(k)] of a candidate list
    [l]: at most [k] entries (for [k] that is not negative), in fact
    [min k d] of them for [d] distinct elements; ordered by descending
    count, and among equal counts by first occurrence in [l]; no token
    twice, every token from [l] with the number of its occurrences, and no
    token left out that ranks before an entry; all distinct elements when [k] is at least their number;
    nothing for the empty list. *)
Theorem top_k_view (l : list pystr) (k : Z) :
  let res := most_common (_word_frequency l) k in
  (0 <= k -> len res <= k)
  ∧ length res = min (Z.to_nat k) (length (remove_dups l))
  ∧ StronglySorted (rank l) res
  ∧ NoDup res.*1
  ∧ (forall t n, (t, n) ∈ res -> t ∈ l ∧ n = list_count t l)
  ∧ (forall t, t ∈ l -> t ∉ res.*1 ->
       forall a, a ∈ res -> rank l a (t, list_count t l))
  ∧ (len (remove_dups l) <= k -> forall t, t ∈ l -> t ∈ res.*1)
  ∧ most_common (_word_frequency []) k = [].
Proof.
  intros res. unfold _word_frequency in *.
  destruct (most_common_Counter l k) as (Hlen & Hsort & Hnd & Hin & Htop).
  fold res in Hlen, Hsort, Hnd, Hin, Htop.
  split_and!; try done.
  - intros Hk. unfold len. rewrite Hlen. lia.
  - intros Hk t Ht. unfold len in Hk.
    destruct (decide (t ∈ res.*1)) as [|Hout]; [done|].
    exfalso.
    (* all the distinct elements are there, so [t] is one of them *)
    assert (length res.*1 = length (remove_dups l)) as Hfull
      by (rewrite length_fmap, Hlen; lia).
    assert (res.*1 ⊆+ remove_dups l) as Hsub.
    { apply NoDup_submseteq; [done|]. intros x Hx.
      apply elem_of_remove_dups.
      apply list_elem_of_fmap in Hx as [[x' n] [-> Hx]].
      by apply Hin in Hx as [? _]. }
    apply submseteq_length_Permutation in Hsub; [|lia].
    apply Hout. rewrite Hsub. by apply elem_of_remove_dups.
  - unfold most_common. simpl. by rewrite take_nil.
Qed.

Lemma remove_stopwords_same self1 self2 (text : list pystr) :
  stopwords self1 = stopwords self2 ->
  _remove_stopwords self1 text = _remove_stopwords self2 text.
Proof. intros Hs. unfold _remove_stopwords. by rewrite Hs. Qed.

(** C7.  Two runs of [analyze_file] that extract the same text, with the
    same stopword set, return the same result, whatever else differs in
    the two worlds (the logger, the log files, the documents left open). *)
Theorem analysis_is_repeatable self1 self2 (k : Z) w1 w2 (text : pystr) u1 u2 :
  stopwords self1 = stopwords self2 ->
  extract self1 w1 = (Ok text, u1) ->
  extract self2 w2 = (Ok text, u2) ->
  exists res,
    (analyze_file self1 k w1).1 = Ok res
    ∧ (analyze_file self2 k w2).1 = Ok res.
Proof.
  intros Hs He1 He2.
  destruct (analyze_file_run self1 k w1 text u1 He1) as (w1' & -> & _).
  destruct (analyze_file_run self2 k w2 text u2 He2) as (w2' & -> & _).
  eexists. split; [reflexivity|]. simpl.
  unfold chinese_candidates, keyword_tokens.
  by rewrite (remove_stopwords_same self1 self2 _ Hs).
Qed.

(** Running [analyze_file] again, in the world the first run left, gives
    what the first run gave. *)
Lemma analyze_file_twice self (k : Z) w :
  (analyze_file self k (analyze_file self k w).2).1 = (analyze_file self k w).1.
Proof.
  pose proof (analyze_file_documents self k w) as Hd.
  pose proof (extract_result_documents self _ _ Hd) as He.
  set (w2 := (analyze_file self k w).2) in *.
  destruct (extract self w) as [[text|e] u1] eqn:E1;
    destruct (extract self w2) as [[text'|e'] u2] eqn:E2;
    simpl in He; try discriminate; injection He as ->.
  - destruct (analyze_file_run self k w text u1 E1) as (? & -> & _).
    destruct (analyze_file_run self k w2 text u2 E2) as (? & -> & _).
    reflexivity.
  - rewrite (analyze_file_raise self k w e u1 E1).
    rewrite (analyze_file_raise self k w2 e u2 E2). reflexivity.
Qed.

(** C8, as the code has it.  Neither extraction closes what it opens.
    DOCX extraction holds no document of its own.  PDF extraction opens the
    document: when the call returns the text, the document has gone with
    the frame of the call, whose local [doc] was the only reference to it,
    and the open documents are those of before; when [fitz.open] fails,
    nothing was opened; when reading a page fails, which happens exactly
    when one of the pages cannot be read, the exception leaves the call
    with the document still open. *)
Theorem extraction_open_documents self w :
  open_documents (_extract_text_from_docx self w).2 = open_documents w
  ∧ open_documents (_extract_text_from_pdf self w).2
    = match fitz_documents w (file_path self),
            (_extract_text_from_pdf self w).1 with
      | Done _, Raise _ => open_documents w ++ [file_path self]
      | _, _ => open_documents w
      end
  ∧ forall pages, fitz_documents w (file_path self) = Done pages ->
      (exists m, Failed m ∈ pages)
      ↔ exists e, (_extract_text_from_pdf self w).1 = Raise e.
Proof.
  split_and!.
  - by rewrite extract_docx_world.
  - by rewrite extract_pdf_world.
  - intros pages Hdoc. rewrite extract_pdf_run, Hdoc.
    rewrite (pages_fail pages [] w).
    destruct (for_each pages _ [] w).1 as [text|e]; simpl.
    + split; intros [e [=]].
    + split; intros _; by eexists.
Qed.

(** C9.  Every pair [(token, count)] of the three lists [analyze_file]
    returns has a positive count, the number of occurrences of the token in
    the list's candidate list, where the token does occur. *)
Theorem top_k_counts self (k : Z) w (res : AnalysisResult) w' :
  analyze_file self k w = (Ok res, w') ->
  exists text w1,
    extract self w = (Ok text, w1)
    ∧ (forall t n, (t, n) ∈ Chinese_Words res ->
         0 < n ∧ n = list_count t (chinese_candidates self text)
         ∧ t ∈ chinese_candidates self text)
    ∧ (forall t n, (t, n) ∈ Numbers res ->
         0 < n ∧ n = list_count t (number_candidates text)
         ∧ t ∈ number_candidates text)
    ∧ (forall t n, (t, n) ∈ Special_Characters res ->
         0 < n ∧ n = list_count t (special_candidates text)
         ∧ t ∈ special_candidates text).
Proof.
  intros Hrun.
  destruct (analyze_file_inv self k w res w' Hrun)
    as (text & w1 & He & -> & -> & ->).
  exists text, w1. split; [exact He|].
  unfold _word_frequency.
  split_and!; intros t n Hin;
    match type of Hin with
    | _ ∈ most_common (Counter ?l) _ =>
        destruct (most_common_Counter l k) as (_ & _ & _ & Hc & _);
        apply Hc in Hin as [Ht ->];
        split_and!; [by apply list_count_pos | reflexivity | exact Ht]
    end.
Qed.

(** C10.  A token of the [Numbers] list is one decimal digit, a token of
    the [Special Characters] list is one character that is neither a word
    character nor whitespace, and no token is in both lists. *)
Theorem numbers_and_special_characters self (k : Z) w (res : AnalysisResult) w' :
  analyze_file self k w = (Ok res, w') ->
  (forall t n, (t, n) ∈ Numbers res ->
     exists c, t = [c] ∧ Py_UNICODE_ISDECIMAL c = true)
  ∧ (forall t n, (t, n) ∈ Special_Characters res ->
       exists c, t = [c] ∧ is_word c = false ∧ Py_UNICODE_ISSPACE c = false)
  ∧ (forall t, t ∈ (Numbers res).*1 -> t ∉ (Special_Characters res).*1).
Proof.
  intros Hrun.
  destruct (analyze_file_inv self k w res w' Hrun)
    as (text & w1 & He & _ & Hn & Hs).
  unfold _word_frequency in *.
  assert (Hdigit : forall t n, (t, n) ∈ Numbers res ->
            exists c, t = [c] ∧ Py_UNICODE_ISDECIMAL c = true).
  { intros t n Hin. rewrite Hn in Hin.
    destruct (most_common_Counter (number_candidates text) k)
      as (_ & _ & _ & Hc & _).
    apply Hc in Hin as [Ht _]. rewrite number_candidates_spec in Ht.
    apply list_elem_of_In, in_map_iff in Ht as (c & <- & Hc').
    apply list_elem_of_In, list_elem_of_filter in Hc' as [Hd _]. eauto. }
  assert (Hspecial : forall t n, (t, n) ∈ Special_Characters res ->
            exists c, t = [c] ∧ is_word c = false
                      ∧ Py_UNICODE_ISSPACE c = false).
  { intros t n Hin. rewrite Hs in Hin.
    destruct (most_common_Counter (special_candidates text) k)
      as (_ & _ & _ & Hc & _).
    apply Hc in Hin as [Ht _]. rewrite special_candidates_spec in Ht.
    apply list_elem_of_In, in_map_iff in Ht as (c & <- & Hc').
    apply list_elem_of_In, list_elem_of_filter in Hc' as [[Hw Hsp] _]. eauto. }
  split_and!; [exact Hdigit | exact Hspecial |].
  intros t [[t1 n1] [-> H1]]%list_elem_of_fmap
           [[t2 n2] [Heq H2]]%list_elem_of_fmap.
  simpl in *. subst t2.
  apply Hdigit in H1 as (c & -> & Hd).
  apply Hspecial in H2 as (c' & [= <-] & Hw & _).
  apply decimal_is_word in Hd. congruence.
Qed.
End Claims.

Section Samples.
#[local] Existing Instance ascii_cjk_data.
#[local] Existing Instance space_jieba.

(** C1.  On a document whose text is "你好，世界！你好！" and the word
    "你好", [count_given_word_frequency] prints the count 2 and returns
    [None], not the count. *)
Theorem count_given_word_frequency_returns_None :
  let run :=
    count_given_word_frequency (analyzer_of (lit "greeting.pdf")) nihao
                               sample_world in
  run.1 = Ok PyNone
  ∧ stdout run.2
    = [[PyStr (lit "The frequency of the given word is: "); PyInt 2]].
Proof. vm_compute. split; reflexivity. Qed.

(** C2 on [notes.txt] and on [greeting.pdf]. *)
Lemma unsupported_format_raises_witness :
  (analyze_file (analyzer_of (lit "notes.txt")) 10 sample_world).1
  = Raise (ValueError unsupported_message)
  ∧ forall m,
      (analyze_file (analyzer_of (lit "greeting.pdf")) 10 sample_world).1
      ≠ Raise (ValueError m).
Proof.
  destruct (unsupported_format_raises (analyzer_of (lit "notes.txt")) 10
              nihao sample_world) as [Hu _].
  destruct (unsupported_format_raises (analyzer_of (lit "greeting.pdf")) 10
              nihao sample_world) as [_ Hs].
  split.
  - destruct (Hu eq_refl) as [-> _]. reflexivity.
  - intros m. apply (Hs eq_refl m).
Defined.

(** C8 as stated fails on the exit path of an extraction error: no
    document is open in [sample_world]; the second page of [torn.pdf]
    cannot be loaded, the exception leaves the call, and the document is
    open in the world it leaves. *)
Lemma torn_pdf_left_open :
  let run :=
    _extract_text_from_pdf (analyzer_of (lit "torn.pdf")) sample_world in
  open_documents sample_world = []
  ∧ run.1 = Raise (ExtractionFailure (lit "cannot load page 1"))
  ∧ open_documents run.2 = [lit "torn.pdf"].
Proof. vm_compute. split_and!; reflexivity. Qed.

(** On the other exit path nothing is left: the extraction from
    [greeting.pdf] returns the text, and no document is open after it. *)
Example greeting_pdf_released :
  let run :=
    _extract_text_from_pdf (analyzer_of (lit "greeting.pdf")) sample_world in
  run.1 = Ok greeting_text ∧ open_documents run.2 = [].
Proof. vm_compute. split; reflexivity. Qed.

(** C3 as stated fails: the second line of [stopwords/cn.txt] is blank,
    and the empty string is a stopword of the analyzer constructed in
    [sample_world]. *)
Lemma blank_line_is_a_stopword :
  exists a w',
    FileAnalyzer_init (lit "greeting.pdf") sample_world = (Ok a, w')
    ∧ [] ∈ stopwords a.
Proof.
  destruct (FileAnalyzer_init_run (lit "greeting.pdf") sample_world)
    as (S & w' & Hrun & HS).
  eexists _, w'. split; [exact Hrun|]. apply HS.
  exists sample_stopwords, (lit "cn.txt"), [0x7684; 10; 10; 0x4e86; 10]%N,
    [10%N].
  split_and!.
  - reflexivity.
  - apply tree_file_here. apply list_elem_of_here.
  - reflexivity.
  - vm_compute. apply list_elem_of_further, list_elem_of_here.
  - reflexivity.
Qed.

(** C4 on [mixed.pdf]: the one-character tokens are gone before the
    keywords are extracted. *)
Lemma stopword_filter_paths_witness :
  exists res w',
    analyze_file (analyzer_of (lit "mixed.pdf")) 10 sample_world = (Ok res, w')
    ∧ Chinese_Words res = [(nihao, 1); ([0x4e16; 0x754c]%N, 1)].
Proof.
  destruct (stopword_filter_paths (analyzer_of (lit "mixed.pdf")) 10 nihao
              sample_world) as (_ & Hpath & _).
  edestruct Hpath as (res & w' & Hrun & Hres); [vm_compute; reflexivity|].
  exists res, w'. split; [exact Hrun|]. rewrite Hres. vm_compute. reflexivity.
Defined.

(** C5 on [mixed.pdf]: the words come from the tokens, the digits and the
    marks from the raw text. *)
Lemma candidate_lists_witness :
  exists w',
    analyze_file (analyzer_of (lit "mixed.pdf")) 10 sample_world
    = (Ok {| Chinese_Words := [(nihao, 1); ([0x4e16; 0x754c]%N, 1)];
             Numbers := [(lit "3", 1); (lit "2", 1)];
             Special_Characters := [(lit ",", 1); (lit "!", 1)] |}, w').
Proof.
  edestruct (candidate_lists (analyzer_of (lit "mixed.pdf")) 10 sample_world)
    as (w' & Hrun & _); [vm_compute; reflexivity|].
  exists w'. rewrite Hrun. f_equal.
Defined.

(** C6 on the list b, a, b, c, a: the tie between b and a goes to b, met
    first. *)
Lemma top_k_view_witness :
  let l := [lit "b"; lit "a"; lit "b"; lit "c"; lit "a"] in
  len (most_common (_word_frequency l) 2) <= 2
  ∧ most_common (_word_frequency l) 2 = [(lit "b", 2); (lit "a", 2)]
  ∧ forall t, t ∈ l -> t ∈ (most_common (_word_frequency l) 3).*1.
Proof.
  intros l.
  destruct (top_k_view l 2) as (Hlen & _).
  destruct (top_k_view l 3) as (_ & _ & _ & _ & _ & _ & Hall & _).
  split_and!.
  - apply Hlen. lia.
  - vm_compute. reflexivity.
  - apply Hall. vm_compute. discriminate.
Defined.

(** C7 on [greeting.pdf], in two worlds that differ in everything but the
    documents. *)
Lemma analysis_is_repeatable_witness :
  exists res,
    (analyze_file (analyzer_of (lit "greeting.pdf")) 10 sample_world).1 = Ok res
    ∧ (analyze_file (analyzer_of (lit "greeting.pdf")) 10 bare_world).1 = Ok res.
Proof.
  eapply (analysis_is_repeatable
            (analyzer_of (lit "greeting.pdf")) (analyzer_of (lit "greeting.pdf"))
            10 sample_world bare_world).
  - reflexivity.
  - vm_compute. reflexivity.
  - vm_compute. reflexivity.
Defined.

(** C9 on [mixed.pdf]. *)
Lemma top_k_counts_witness :
  exists res w',
    analyze_file (analyzer_of (lit "mixed.pdf")) 10 sample_world = (Ok res, w')
    ∧ forall t n, (t, n) ∈ Numbers res -> 0 < n.
Proof.
  assert (exists res w',
            analyze_file (analyzer_of (lit "mixed.pdf")) 10 sample_world
            = (Ok res, w')) as (res & w' & Hrun)
    by (eexists _, _; vm_compute; reflexivity).
  exists res, w'. split; [exact Hrun|].
  destruct (top_k_counts _ _ _ _ _ Hrun) as (text & w1 & _ & _ & Hn & _).
  intros t n Hin. by apply Hn in Hin as [? _].
Defined.

(** C10 on [mixed.pdf]. *)
Lemma numbers_and_special_characters_witness :
  exists res w',
    analyze_file (analyzer_of (lit "mixed.pdf")) 10 sample_world = (Ok res, w')
    ∧ forall t, t ∈ (Numbers res).*1 -> t ∉ (Special_Characters res).*1.
Proof.
  assert (exists res w',
            analyze_file (analyzer_of (lit "mixed.pdf")) 10 sample_world
            = (Ok res, w')) as (res & w' & Hrun)
    by (eexists _, _; vm_compute; reflexivity).
  exists res, w'. split; [exact Hrun|].
  destruct (numbers_and_special_characters _ _ _ _ _ Hrun) as (_ & _ & Hdisj).
  exact Hdisj.
Defined.
End Samples.

(** * Further properties *)

(** ** Facts about [strip] *)

Lemma lstrip_clean_head (s : pystr) : clean_head (lstrip s).
Proof.
  induction s as [|c s IH]; simpl; [done|].
  destruct (Py_UNICODE_ISSPACE c) eqn:Hc; [done|]. simpl. done.
Qed.

Lemma lstrip_fixed (s : pystr) : clean_head s -> lstrip s = s.
Proof. destruct s as [|c s]; simpl; [done|]. by intros ->. Qed.

Lemma lstrip_snoc (s : pystr) (c : char) :
  Py_UNICODE_ISSPACE c = false -> lstrip (s ++ [c]) = lstrip s ++ [c].
Proof.
  intros Hc. induction s as [|a s IH]; simpl.
  - by rewrite Hc.
  - by destruct (Py_UNICODE_ISSPACE a).
Qed.

Lemma rstrip_clean_head (s : pystr) : clean_head s -> clean_head (rstrip s).
Proof.
  destruct s as [|c s]; [done|]. simpl. intros Hc. unfold rstrip. simpl.
  rewrite lstrip_snoc by done. by rewrite rev_app_distr.
Qed.

Lemma rstrip_idempotent (s : pystr) : rstrip (rstrip s) = rstrip s.
Proof.
  unfold rstrip. rewrite rev_involutive. f_equal.
  apply lstrip_fixed, lstrip_clean_head.
Qed.

Lemma strip_idempotent (s : pystr) : strip (strip s) = strip s.
Proof.
  unfold strip.
  rewrite (lstrip_fixed (rstrip (lstrip s)))
    by apply rstrip_clean_head, lstrip_clean_head.
  apply rstrip_idempotent.
Qed.

(** ** Totals of a [Counter] *)

Section TotalFacts.
Context {K : Type} `{EqDecision K}.

Lemma total_counter_add (c : counter K) (x : K) :
  total (counter_add c x) = total c + 1.
Proof.
  induction c as [|[k n] c IH]; simpl; [lia|].
  case_decide; simpl; lia.
Qed.

Lemma total_Counter (l : list K) : total (Counter l) = len l.
Proof.
  unfold Counter, len.
  assert (forall c, total (fold_left counter_add l c) = total c + Z.of_nat (length l))
    as Hgen.
  { induction l as [|x l IH]; intros c; simpl; [lia|].
    rewrite IH, total_counter_add. lia. }
  rewrite Hgen. simpl. lia.
Qed.

Lemma total_perm (c1 c2 : list (K * Z)) : c1 ≡ₚ c2 -> total c1 = total c2.
Proof. induction 1; simpl; lia. Qed.

Lemma total_app (c1 c2 : list (K * Z)) : total (c1 ++ c2) = total c1 + total c2.
Proof. induction c1 as [|kv c1 IH]; simpl; lia. Qed.

Lemma total_nonneg (c : list (K * Z)) :
  Forall (fun kv => 0 <= kv.2) c -> 0 <= total c.
Proof. induction 1; simpl; lia. Qed.

Lemma Counter_positive (l : list K) : Forall (fun kv => 0 < kv.2) (Counter l).
Proof.
  rewrite Counter_items. apply Forall_forall. intros [k n] Hin.
  apply list_elem_of_In, in_map_iff in Hin as (k' & [= -> <-] & Hk).
  apply list_elem_of_In in Hk. rewrite elem_of_distinct in Hk.
  by apply list_count_pos.
Qed.

Lemma total_most_common (l : list K) (k : Z) :
  total (most_common (Counter l) k) <= len l
  ∧ (len (remove_dups l) <= k -> total (most_common (Counter l) k) = len l).
Proof.
  unfold most_common.
  set (s := sorted_reverse (Counter l)). set (n := Z.to_nat k).
  assert (Hs : s ≡ₚ Counter l) by apply sorted_reverse_perm.
  assert (Htot : total s = len l) by (by rewrite (total_perm _ _ Hs), total_Counter).
  assert (Hpos : Forall (fun kv => 0 <= kv.2) s).
  { rewrite Hs. eapply Forall_impl; [apply Counter_positive|]. simpl. lia. }
  rewrite <- (take_drop n s) in Htot, Hpos. rewrite total_app in Htot.
  apply Forall_app in Hpos as [_ Hdrop]. apply total_nonneg in Hdrop.
  split; [lia|]. intros Hk.
  assert (length s = length (remove_dups l)) as Hlen.
  { rewrite Hs, Counter_items, length_map. apply distinct_length. }
  rewrite take_ge; [|unfold len in Hk; lia].
  rewrite <- Htot. rewrite take_ge, drop_ge by (unfold len in Hk; lia).
  simpl. lia.
Qed.
End TotalFacts.

(** ** What the constructor opens *)

Section OpenFacts.
Implicit Types (w : world).

Lemma opens_refl w : opens [] w w.
Proof. unfold opens. destruct w; simpl. by rewrite app_nil_r. Qed.

Lemma opens_trans new1 new2 w1 w2 w3 :
  opens new1 w1 w2 -> opens new2 w2 w3 -> opens (new1 ++ new2) w1 w3.
Proof.
  unfold opens. intros -> ->. simpl. by rewrite app_assoc.
Qed.

(** A loop whose iterations only open files of a kind only opens files of
    that kind. *)
Lemma for_each_opens {A S} (P : pystr -> Prop) (xs : list A)
    (body : A -> S -> M S) :
  (forall x, x ∈ xs -> forall s w,
     exists new, opens new w (body x s w).2 ∧ Forall P new) ->
  forall s w,
    exists new, opens new w (for_each xs body s w).2 ∧ Forall P new.
Proof.
  induction xs as [|x xs IH]; intros Hbody s w; simpl.
  - exists []. split; [apply opens_refl | constructor].
  - rewrite bind_run.
    destruct (Hbody x (list_elem_of_here _ _) s w) as (new1 & Ho1 & HP1).
    destruct (body x s w) as [[s'|e] w1]; simpl in *.
    + destruct (IH (fun y Hy => Hbody y (list_elem_of_further _ _ _ Hy)) s' w1)
        as (new2 & Ho2 & HP2).
      exists (new1 ++ new2). split; [by eapply opens_trans|].
      by apply Forall_app.
    + eauto.
Qed.

Lemma os_walk_node_roots (n : fsnode) (parent : pystr) root dirs files :
  (root, dirs, files) ∈ os_walk_node parent n ->
  (parent ++ lit "/") `prefix_of` root.
Proof.
  revert parent. induction n as [fname c|d sub IH] using fsnode_ind;
    intros parent Hin; simpl in Hin.
  - by apply elem_of_nil in Hin.
  - apply elem_of_cons in Hin as [[= -> -> ->]|Hin].
    + exists d. unfold os_path_join. by rewrite <- !app_assoc.
    + apply list_elem_of_In, in_flat_map in Hin as (n & Hn & Hin).
      apply list_elem_of_In in Hn, Hin. rewrite Forall_forall in IH.
      apply (IH n Hn) in Hin. etrans; [|exact Hin].
      exists (d ++ lit "/"). unfold os_path_join. by rewrite <- !app_assoc.
Qed.

Lemma os_walk_roots (top : pystr) (d : option (list fsnode)) root dirs files :
  (root, dirs, files) ∈ os_walk top d ->
  (top ++ lit "/") `prefix_of` (root ++ lit "/").
Proof.
  destruct d as [entries|]; simpl; [|by intros ?%elem_of_nil].
  intros [[= -> -> ->]|Hin]%elem_of_cons; [done|].
  apply list_elem_of_In, in_flat_map in Hin as (n & Hn & Hin).
  apply list_elem_of_In in Hin. apply os_walk_node_roots in Hin.
  by apply prefix_app_r.
Qed.

Lemma stopword_file_join (root file : pystr) :
  lit "stopwords/" `prefix_of` (root ++ lit "/") ->
  endswith file (lit ".txt") = true ->
  stopword_file (os_path_join root file).
Proof.
  intros Hroot Hext. split.
  - apply endswith_suffix. apply endswith_suffix in Hext.
    unfold os_path_join. rewrite app_assoc. by apply suffix_app_r.
  - unfold os_path_join. rewrite app_assoc. by apply prefix_app_r.
Qed.

(** The world the constructor leaves: the logger at [INFO] with one more
    handler, whose log file was opened, and the stopword files opened after
    it; nothing else differs. *)
Lemma FileAnalyzer_init_world (path : pystr) w :
  exists new,
    (FileAnalyzer_init path w).2
    = with_files (open_documents w)
        (accessed w ++ [localtime w ++ lit "log.txt"] ++ new)
        (with_logger INFO (logger_handlers w ++ [localtime w ++ lit "log.txt"])
           (log_files w) w)
    ∧ Forall stopword_file new.
Proof.
  unfold FileAnalyzer_init.
  rewrite bind_run. unfold logger_setLevel at 1, modify at 1.
  rewrite bind_run. unfold gets at 1.
  rewrite bind_run. unfold logger_addHandler at 1, modify at 1.
  rewrite bind_run. unfold gets at 1.
  rewrite bind_run.
  cbn [localtime stopwords_dir logger_handlers logger_level log_files
       open_documents accessed with_logger with_files].
  match goal with
  | |- context [for_each ?xs ?body ?sw0 ?w0] =>
      destruct (for_each_opens stopword_file xs body) with (s := sw0) (w := w0)
        as (new & Ho & HP);
      [|exists new; split; [|exact HP];
        destruct (for_each xs body sw0 w0) as [[sw|e] w1]; simpl in *;
        rewrite Ho; unfold with_files; simpl; by rewrite <- app_assoc]
  end.
  intros [[root dirs] files] Hroot sw1 w1.
  apply os_walk_roots in Hroot.
  apply for_each_opens. intros [file content] _ sw2 w2.
  destruct (endswith file (lit ".txt")) eqn:Hext; simpl.
  - rewrite bind_run. unfold open_lines at 1.
    destruct (add_lines_run (readlines_from [] content) sw2
                (with_files (open_documents w2)
                   (accessed w2 ++ [os_path_join root file]) w2))
      as (S & w' & Hrun & _).
    rewrite Hrun. simpl.
    exists [os_path_join root file]. split.
    + assert (w' = with_files (open_documents w2)
                (accessed w2 ++ [os_path_join root file]) w2) as ->; [|done].
      clear -Hrun. revert sw2 Hrun.
      generalize (with_files (open_documents w2)
                    (accessed w2 ++ [os_path_join root file]) w2).
      induction (readlines_from [] content) as [|line lines IH];
        intros w0 sw0 Hrun; simpl in Hrun.
      * by injection Hrun as _ ->.
      * rewrite bind_run in Hrun. simpl in Hrun. eauto.
    + constructor; [|constructor]. by apply stopword_file_join.
  - exists []. split; [apply opens_refl | constructor].
Qed.
End OpenFacts.

(** ** The analyzer, method by method *)

Section AnalyzerFacts.
Context `{UnicodeData} `{Jieba}.
Implicit Types (self : FileAnalyzer) (w : world).

Lemma pages_loop (texts : list pystr) (tail : list (outcome pystr))
    (acc : pystr) w :
  for_each (map Done texts ++ tail)
    (fun page text => let* t := lift page in ret (text ++ t)) acc w
  = for_each tail
      (fun page text => let* t := lift page in ret (text ++ t))
      (acc ++ concat texts) w.
Proof.
  revert acc. induction texts as [|t texts IH]; intros acc; simpl.
  - by rewrite app_nil_r.
  - rewrite bind_run. simpl. rewrite IH. by rewrite <- app_assoc.
Qed.

(** X1.  When the document opens, [_extract_text_from_pdf] returns the
    texts of the pages, in page order and with nothing between them, if
    every page loads; if a page does not, the call raises the failure of
    the first such page and no text is returned. *)
Theorem pdf_text_in_page_order self w (pages : list (outcome pystr)) :
  fitz_documents w (file_path self) = Done pages ->
  (forall texts, pages = map Done texts ->
     (_extract_text_from_pdf self w).1 = Ok (concat texts))
  ∧ (forall texts m rest, pages = map Done texts ++ Failed m :: rest ->
       (_extract_text_from_pdf self w).1 = Raise (ExtractionFailure m)).
Proof.
  intros Hdoc. rewrite extract_pdf_run, Hdoc. split.
  - intros texts ->. rewrite <- (app_nil_r (map Done texts)).
    rewrite pages_loop. reflexivity.
  - intros texts m rest ->. rewrite pages_loop. reflexivity.
Qed.


Lemma re_findall_One_app (cs : charset) (s1 s2 : pystr) :
  re_findall (One cs) (s1 ++ s2)
  = re_findall (One cs) s1 ++ re_findall (One cs) s2.
Proof. by rewrite !re_findall_One, List.filter_app, map_app. Qed.


(** A newline between two texts adds no special character. *)
Lemma special_candidates_join (paragraphs : list pystr) :
  special_candidates (str_join [10%N] paragraphs)
  = concat (map special_candidates paragraphs).
Proof.
  unfold special_candidates, special_char_pattern.
  induction paragraphs as [|p ps IH]; [reflexivity|].
  destruct ps as [|q ps].
  - simpl. by rewrite app_nil_r.
  - change (str_join [10%N] (p :: q :: ps))
      with (p ++ [10%N] ++ str_join [10%N] (q :: ps)).
    rewrite !re_findall_One_app, IH.
    change (map ?f (p :: ?l)) with (f p :: map f l). simpl concat at 2.
    f_equal. rewrite re_findall_One. simpl.
    rewrite in_special_set. simpl. by rewrite orb_true_r.
Qed.


(** X3.  For a DOCX that loads, the [Special Characters] list is the top-K
    view of the special characters of the paragraphs, paragraph after
    paragraph: the newlines that join the paragraphs add none. *)
Theorem docx_paragraphs_candidates self (k : Z) w (paragraphs : list pystr) :
  endswith (file_path self) (lit ".pdf") = false ->
  endswith (file_path self) (lit ".docx") = true ->
  docx_documents w (file_path self) = Done paragraphs ->
  exists res w',
    analyze_file self k w = (Ok res, w')
    ∧ Special_Characters res
      = most_common (Counter (concat (map special_candidates paragraphs))) k.
Proof.
  intros Hpdf Hext Hdoc.
  assert (exists u, extract self w = (Ok (str_join [10%N] paragraphs), u))
    as [u He].
  { unfold extract. rewrite Hpdf, Hext. unfold _extract_text_from_docx.
    rewrite bind_run. unfold docx_Document. rewrite Hdoc. simpl. eauto. }
  destruct (analyze_file_run self k w _ u He) as (w' & Hrun & _).
  eexists _, w'. split; [exact Hrun|]. simpl. unfold _word_frequency.
  by rewrite special_candidates_join.
Qed.

(** X4.  The counts of [_word_frequency(words)] add up to [len(words)];
    the counts of its [most_common(k)] never add up to more, and add up to
    [len(words)] when [k] is at least the number of distinct words. *)
Theorem word_frequency_totals (words : list pystr) (k : Z) :
  total (_word_frequency words) = len words
  ∧ total (most_common (_word_frequency words) k) <= len words
  ∧ (len (remove_dups words) <= k ->
     total (most_common (_word_frequency words) k) = len words).
Proof.
  unfold _word_frequency. split; [apply total_Counter|].
  apply total_most_common.
Qed.
End AnalyzerFacts.

(** ** The logger and the standard output *)

Section LogFacts.
Context `{UnicodeData} `{Jieba}.
Implicit Types (self : FileAnalyzer) (w : world).

(** A successful extraction changes the opened files only. *)
Lemma extract_ok_world self w (text : pystr) u :
  extract self w = (Ok text, u) ->
  u = with_files (open_documents u) (accessed u) w.
Proof.
  unfold extract. destruct (endswith (file_path self) (lit ".pdf")).
  - intros He. pose proof (extract_pdf_world self w) as Hw.
    rewrite He in Hw. simpl in Hw. by rewrite Hw.
  - destruct (endswith (file_path self) (lit ".docx")).
    + intros He. pose proof (extract_docx_world self w) as Hw.
      rewrite He in Hw. simpl in Hw. by rewrite Hw.
    + rewrite bind_run. unfold logger_error, logger_log, modify. discriminate.
Qed.

(** One logging call: as many records as handlers when the level is
    enabled, none otherwise; the logger itself and the output stay. *)
Lemma logger_log_step (lvl : Z) (m : pystr) a w :
  exists w',
    logger_log lvl m a w = (Ok tt, w')
    ∧ logger_handlers w' = logger_handlers w
    ∧ logger_level w' = logger_level w
    ∧ stdout w' = stdout w
    ∧ (len (log_files w')
       = len (log_files w)
         + (if getEffectiveLevel w <=? lvl then len (logger_handlers w) else 0))
    ∧ ((getEffectiveLevel w <=? lvl) = false -> log_files w' = log_files w).
Proof.
  unfold logger_log, modify. eexists. split; [reflexivity|].
  destruct (getEffectiveLevel w <=? lvl); simpl; split_and!; try done.
  - unfold len. rewrite length_app, length_map. lia.
  - lia.
Qed.

Ltac log_step w2 E Hh Hl Hs Hn Hq :=
  match goal with
  | |- context [bind (logger_log ?l ?m ?a) ?f ?w0] =>
      destruct (logger_log_step l m a w0) as (w2 & E & Hh & Hl & Hs & Hn & Hq);
      rewrite (bind_run (logger_log l m a) f w0), E
  end.

Lemma getEffectiveLevel_level w1 w2 :
  logger_level w1 = logger_level w2 ->
  getEffectiveLevel w1 = getEffectiveLevel w2.
Proof. unfold getEffectiveLevel. by intros ->. Qed.

Lemma analyze_file_log self (k : Z) w (text : pystr) u :
  extract self w = (Ok text, u) ->
  let w' := (analyze_file self k w).2 in
  logger_handlers w' = logger_handlers w
  ∧ logger_level w' = logger_level w
  ∧ stdout w' = stdout w
  ∧ if getEffectiveLevel w <=? INFO
    then len (log_files w')
         = len (log_files w) + 3 * len (logger_handlers w)
    else log_files w' = log_files w.
Proof.
  intros He w'. subst w'. pose proof (extract_ok_world self w text u He) as Hu.
  assert (logger_handlers u = logger_handlers w ∧ logger_level u = logger_level w
          ∧ stdout u = stdout w ∧ log_files u = log_files w)
    as (Hh0 & Hl0 & Hs0 & Hf0) by (by rewrite Hu).
  clear Hu. unfold analyze_file. rewrite bind_run, He. unfold logger_info.
  log_step w1 E1 Hh1 Hl1 Hs1 Hn1 Hq1.
  log_step w2 E2 Hh2 Hl2 Hs2 Hn2 Hq2.
  log_step w3 E3 Hh3 Hl3 Hs3 Hn3 Hq3.
  simpl.
  rewrite (getEffectiveLevel_level w2 w), (getEffectiveLevel_level w1 w),
    (getEffectiveLevel_level u w) in * by congruence.
  split_and!; try congruence.
  destruct (getEffectiveLevel w <=? INFO).
  - unfold len in *. rewrite Hh2, Hh1, Hh0 in *. rewrite Hf0 in *. lia.
  - rewrite Hq3, Hq2, Hq1 by done. done.
Qed.

(** X5.  An analyzer is constructed and a readable document analysed: the
    logger has one more handler than before, and three records have been
    written for every handler, the earlier ones included. *)
Theorem records_per_handler (path : pystr) (k : Z) w (a : FileAnalyzer) w1
    (text : pystr) u :
  FileAnalyzer_init path w = (Ok a, w1) ->
  extract a w1 = (Ok text, u) ->
  let w2 := (analyze_file a k w1).2 in
  logger_handlers w2 = logger_handlers w ++ [localtime w ++ lit "log.txt"]
  ∧ len (log_files w2)
    = len (log_files w) + 3 * (len (logger_handlers w) + 1).
Proof.
  intros Hinit He w2. subst w2.
  destruct (FileAnalyzer_init_world path w) as (new & Hw1 & _).
  rewrite Hinit in Hw1. simpl in Hw1.
  destruct (analyze_file_log a k w1 text u He) as (Hh & _ & _ & Hlog).
  rewrite Hh. rewrite Hw1 in Hlog |- *. simpl in *.
  split; [reflexivity|]. rewrite Hlog. unfold len. rewrite length_app. simpl. lia.
Qed.


(** X7.  On a readable document [count_given_word_frequency] prints one
    line, with the number of tokens equal to the word, a number that is
    not negative and is zero when no token is the word; it writes nothing
    to the log. *)
Theorem count_printed_once self (word : pystr) w (text : pystr) u :
  extract self w = (Ok text, u) ->
  let w' := (count_given_word_frequency self word w).2 in
  let count := list_count word (counted_tokens text) in
  stdout w'
  = stdout w
    ++ [[PyStr (lit "The frequency of the given word is: "); PyInt count]]
  ∧ log_files w' = log_files w
  ∧ 0 <= count
  ∧ (word ∉ counted_tokens text -> count = 0).
Proof.
  intros He w' count. subst w'.
  rewrite (count_given_word_frequency_run self word w text u He).
  rewrite (extract_ok_world self w text u He). simpl.
  split_and!; [reflexivity | reflexivity | apply list_count_nonneg |].
  apply list_count_absent.
Qed.

Lemma counted_tokens_stripped (text t : pystr) :
  t ∈ counted_tokens text -> t ≠ [] ∧ strip t = t.
Proof.
  unfold counted_tokens. intros Ht.
  apply list_elem_of_In, in_map_iff in Ht as (t0 & <- & Ht0).
  apply filter_In in Ht0 as [_ Hne].
  apply negb_true_iff, bool_decide_eq_false in Hne.
  split; [done | apply strip_idempotent].
Qed.

(** X8.  A word that is empty, or that begins or ends with whitespace, is
    never counted: [count_given_word_frequency] prints 0 for it, whatever
    the document. *)
Theorem unstripped_word_counts_zero (text word : pystr) :
  word = [] ∨ strip word ≠ word ->
  list_count word (counted_tokens text) = 0.
Proof.
  intros Hw. apply list_count_absent. intros Hin.
  apply counted_tokens_stripped in Hin as [Hne Hs]. by destruct Hw.
Qed.

Lemma lookup_map {A B} (f : A -> B) (l : list A) (i : nat) (x : A) :
  l !! i = Some x -> map f l !! i = Some (f x).
Proof.
  revert i. induction l as [|y l IH]; intros [|i] Hi; simpl in *;
    try discriminate.
  - by injection Hi as ->.
  - by apply IH.
Qed.

(** X9.  The text [count_given_word_frequency] segments is as long as the
    text of the document; it holds none of the punctuation marks, and every
    other character where it was. *)
Theorem punctuation_becomes_space (text : pystr) :
  let cleaned := re_sub punctuation_pattern (lit " ") text in
  length cleaned = length text
  ∧ (forall c, c ∈ cleaned -> in_charset punctuation_marks c = false)
  ∧ (forall i c, text !! i = Some c ->
       cleaned !! i
       = Some (if in_charset punctuation_marks c then 32%N else c)).
Proof.
  intros cleaned. subst cleaned. rewrite punctuation_replaced.
  split_and!.
  - apply length_map.
  - intros c Hc. apply list_elem_of_In, in_map_iff in Hc as (c0 & <- & _).
    destruct (in_charset punctuation_marks c0) eqn:Hc0; [|done].
    vm_compute. reflexivity.
  - intros i c Hi.
    by apply (lookup_map
                (fun c => if in_charset punctuation_marks c then 32%N else c)).
Qed.
End LogFacts.

(** ** The constructor *)

Section ConstructorFacts.
Implicit Types (w : world).

(** X10.  Constructing an analyzer opens the log file of the handler it
    adds, named after the local time, and after it nothing but [.txt] files
    below [stopwords/]: no document is opened, nothing is printed and no
    record is written to the log; the logger is set to [INFO] and gets that
    one more handler. *)
Theorem constructor_effects (path : pystr) w :
  let w' := (FileAnalyzer_init path w).2 in
  (exists new,
     accessed w' = accessed w ++ [localtime w ++ lit "log.txt"] ++ new
     ∧ Forall stopword_file new)
  ∧ open_documents w' = open_documents w
  ∧ stdout w' = stdout w
  ∧ log_files w' = log_files w
  ∧ logger_level w' = INFO
  ∧ logger_handlers w'
    = logger_handlers w ++ [localtime w ++ lit "log.txt"].
Proof.
  intros w'. subst w'.
  destruct (FileAnalyzer_init_world path w) as (new & -> & Hnew).
  simpl. split_and!; try reflexivity. eauto.
Qed.

(** X11.  No stopword of a constructed analyzer begins or ends with
    whitespace: stripping a stopword gives it back. *)
Theorem stopwords_are_stripped (path : pystr) w (a : FileAnalyzer) w' :
  FileAnalyzer_init path w = (Ok a, w') ->
  forall y, y ∈ stopwords a -> strip y = y ∧ clean_head y ∧ clean_head (rev y).
Proof.
  intros Hinit y Hy.
  destruct (FileAnalyzer_init_run path w) as (S & w1 & Hrun & HS).
  rewrite Hinit in Hrun. injection Hrun as -> _.
  apply HS in Hy as (entries & name & content & line & _ & _ & _ & _ & ->).
  split_and!.
  - apply strip_idempotent.
  - apply rstrip_clean_head, lstrip_clean_head.
  - unfold strip, rstrip. rewrite rev_involutive. apply lstrip_clean_head.
Qed.


End ConstructorFacts.

(** ** The window *)

Section WindowFacts.
Context `{UnicodeData} `{Jieba}.
Implicit Types (d : desktop) (w : world).

Lemma gbind_run {A B} (m : G A) (f : A -> G B) d :
  gbind m f d
  = match m d with
    | (Ok a, d') => f a d'
    | (Raise e, d') => (Raise e, d')
    end.
Proof. reflexivity. Qed.

Lemma insert_entries_run (entries : list (pystr * Z)) d :
  insert_entries entries d
  = (Ok tt, with_output (output_area d ++ concat (map entry_line entries)) d).
Proof.
  unfold insert_entries. revert d.
  induction entries as [|[word count] entries IH]; intros d; simpl.
  - unfold gret. destruct d; simpl. by rewrite app_nil_r.
  - rewrite gbind_run. unfold output_insert at 1. rewrite IH. simpl.
    unfold entry_line at 2. simpl. by rewrite <- !app_assoc.
Qed.

(** What [GUI.analyze_file] does with a file selected: the report replaces
    the text of the output area when the analysis returns, and an error box
    shows the message when it raises. *)
Lemma GUI_analyze_file_run d (c : char) (p : pystr) :
  GUI_file_path d = Some (c :: p) ->
  GUI_analyze_file d
  = (Ok tt,
     match analysis (c :: p) (os d) with
     | (Ok results, w') => with_output (report results) (with_os w' d)
     | (Raise e, w') =>
         with_dialogs (dialogs d ++ [Error (lit "Error") (str_exn e)])
                      (with_os (released (os d) w') d)
     end).
Proof.
  intros Hsel. unfold GUI_analyze_file, analysis. rewrite Hsel.
  unfold try_except. rewrite gbind_run. unfold call at 1. rewrite bind_run.
  destruct (FileAnalyzer_init (c :: p) (os d)) as [[a|e] w1]; [|reflexivity].
  rewrite gbind_run. unfold call at 1. simpl.
  destruct (analyze_file a 10 w1) as [[results|e] w2]; [|reflexivity].
  rewrite gbind_run. unfold output_delete at 1.
  rewrite gbind_run. unfold output_insert at 1.
  rewrite gbind_run, insert_entries_run.
  rewrite gbind_run. unfold output_insert at 1.
  rewrite gbind_run, insert_entries_run.
  rewrite gbind_run. unfold output_insert at 1.
  rewrite insert_entries_run. simpl. unfold report.
  by rewrite <- !app_assoc.
Qed.

(** The same for [GUI.count_word_frequency], once a word is typed. *)
Lemma GUI_count_word_frequency_run d (c : char) (p : pystr) (c' : char)
    (word : pystr) (rest : list (option pystr)) :
  GUI_file_path d = Some (c :: p) ->
  prompt_answers d = Some (c' :: word) :: rest ->
  GUI_count_word_frequency d
  = (Ok tt,
     match word_count (c :: p) (c' :: word) (os d) with
     | (Ok frequency, w') =>
         with_dialogs
           (dialogs d
            ++ [Info (lit "Word Frequency")
                  (lit "The frequency of '" ++ (c' :: word) ++ lit "' is: "
                   ++ str_obj frequency)])
           (with_os w' (with_answers (picker_answers d) rest d))
     | (Raise e, w') =>
         with_dialogs (dialogs d ++ [Error (lit "Error") (str_exn e)])
           (with_os (released (os d) w')
              (with_answers (picker_answers d) rest d))
     end).
Proof.
  intros Hsel Hword. unfold GUI_count_word_frequency, word_count. rewrite Hsel.
  rewrite gbind_run. unfold simpledialog_askstring at 1. rewrite Hword.
  unfold try_except. rewrite gbind_run. unfold call at 1. rewrite bind_run.
  simpl.
  destruct (FileAnalyzer_init (c :: p) (os d)) as [[a|e] w1]; [|reflexivity].
  rewrite gbind_run. unfold call at 1. simpl.
  destruct (count_given_word_frequency a (c' :: word) w1) as [[v|e] w2];
    reflexivity.
Qed.

(** The first answer of a list of answers, a cancellation when there is
    none. *)
Lemma GUI_count_word_frequency_cancelled d (c : char) (p : pystr) :
  GUI_file_path d = Some (c :: p) ->
  truthy (default None (head (prompt_answers d))) = false ->
  GUI_count_word_frequency d
  = (Ok tt, with_answers (picker_answers d) (tail (prompt_answers d)) d).
Proof.
  intros Hsel Hword. unfold GUI_count_word_frequency. rewrite Hsel.
  rewrite gbind_run. unfold simpledialog_askstring at 1.
  destruct d as [w0 sel out dl picks words]. simpl in *.
  destruct words as [|[[|c' word]|] rest]; simpl in *;
    try discriminate; reflexivity.
Qed.

(** The result of the extraction depends on the path and on the documents
    only. *)
Lemma extract_path_only (self1 self2 : FileAnalyzer) w1 w2 :
  file_path self1 = file_path self2 ->
  same_documents w1 w2 ->
  (extract self1 w1).1 = (extract self2 w2).1.
Proof.
  intros Hp Hd. rewrite <- (extract_result_documents self2 w1 w2 Hd).
  destruct self1 as [p1 s1], self2 as [p2 s2]. simpl in Hp. subst p2.
  reflexivity.
Qed.

Lemma FileAnalyzer_init_ok (path : pystr) w :
  exists a w1,
    FileAnalyzer_init path w = (Ok a, w1)
    ∧ file_path a = path
    ∧ same_documents w1 w
    ∧ open_documents w1 = open_documents w
    ∧ stdout w1 = stdout w
    ∧ log_files w1 = log_files w
    ∧ logger_level w1 = INFO
    ∧ logger_handlers w1 = logger_handlers w ++ [localtime w ++ lit "log.txt"].
Proof.
  destruct (FileAnalyzer_init_run path w) as (S & w1 & Hrun & _).
  destruct (FileAnalyzer_init_world path w) as (new & Hw & _).
  rewrite Hrun in Hw. simpl in Hw. subst w1.
  eexists _, _. split; [exact Hrun|]. by split_and!.
Qed.

(** The analysis of a readable document: it returns, with one more handler
    on the logger and three more records for every handler. *)
Lemma analysis_readable (path text : pystr) w :
  (extract (reader path) w).1 = Ok text ->
  exists a results w',
    analysis path w = (Ok results, w')
    ∧ Chinese_Words results
      = most_common (Counter (chinese_candidates a text)) 10
    ∧ Numbers results = most_common (Counter (number_candidates text)) 10
    ∧ Special_Characters results
      = most_common (Counter (special_candidates text)) 10
    ∧ same_documents w' w
    ∧ logger_handlers w' = logger_handlers w ++ [localtime w ++ lit "log.txt"]
    ∧ len (log_files w') = len (log_files w) + 3 * (len (logger_handlers w) + 1).
Proof.
  intros Hread. unfold analysis. rewrite bind_run.
  destruct (FileAnalyzer_init_ok path w)
    as (a & w1 & -> & Hp & Hd & _ & _ & Hf & Hl & Hh).
  assert ((extract a w1).1 = Ok text) as He.
  { rewrite <- Hread. by apply extract_path_only. }
  destruct (extract a w1) as [r u] eqn:Hex. simpl in He. subst r.
  destruct (analyze_file_run a 10 w1 text u Hex) as (w' & Hrun & _).
  pose proof (analyze_file_log a 10 w1 text u Hex) as (Hh' & _ & _ & Hlog).
  pose proof (analyze_file_documents a 10 w1) as Hd'.
  rewrite Hrun in Hh', Hlog, Hd' |- *. simpl in *.
  exists a. eexists _, w'. split; [reflexivity|]. simpl.
  unfold _word_frequency. split_and!; try reflexivity.
  - destruct Hd as [? ?], Hd' as [? ?]. split; congruence.
  - congruence.
  - unfold getEffectiveLevel in Hlog. rewrite Hl in Hlog. simpl in Hlog.
    rewrite Hlog, Hh, Hf. unfold len. rewrite length_app. simpl. lia.
Qed.

Lemma analysis_unreadable (path : pystr) (e : exn) w :
  (extract (reader path) w).1 = Raise e ->
  exists w', analysis path w = (Raise e, w').
Proof.
  intros Hread. unfold analysis. rewrite bind_run.
  destruct (FileAnalyzer_init_ok path w) as (a & w1 & -> & Hp & Hd & _).
  assert ((extract a w1).1 = Raise e) as He.
  { rewrite <- Hread. by apply extract_path_only. }
  destruct (extract a w1) as [r u] eqn:Hex. simpl in He. subst r.
  rewrite (analyze_file_raise a 10 w1 e u Hex). eauto.
Qed.

Lemma word_count_readable (path word text : pystr) w :
  (extract (reader path) w).1 = Ok text ->
  exists w', word_count path word w = (Ok PyNone, w').
Proof.
  intros Hread. unfold word_count. rewrite bind_run.
  destruct (FileAnalyzer_init_ok path w) as (a & w1 & -> & Hp & Hd & _).
  assert ((extract a w1).1 = Ok text) as He.
  { rewrite <- Hread. by apply extract_path_only. }
  destruct (extract a w1) as [r u] eqn:Hex. simpl in He. subst r.
  rewrite (count_given_word_frequency_run a word w1 text u Hex). eauto.
Qed.

Lemma word_count_unreadable (path word : pystr) (e : exn) w :
  (extract (reader path) w).1 = Raise e ->
  exists w', word_count path word w = (Raise e, w').
Proof.
  intros Hread. unfold word_count. rewrite bind_run.
  destruct (FileAnalyzer_init_ok path w) as (a & w1 & -> & Hp & Hd & _).
  assert ((extract a w1).1 = Raise e) as He.
  { rewrite <- Hread. by apply extract_path_only. }
  destruct (extract a w1) as [r u] eqn:Hex. simpl in He. subst r.
  rewrite (count_given_word_frequency_raise a word w1 e u Hex). eauto.
Qed.
End WindowFacts.

(** ** Line ends *)

Lemma newlines_app (s1 s2 : pystr) :
  newlines (s1 ++ s2) = (newlines s1 + newlines s2)%nat.
Proof. unfold newlines. by rewrite List.filter_app, length_app. Qed.

Lemma newlines_none (s : pystr) :
  Forall (fun c => c ≠ 10%N) s -> newlines s = 0%nat.
Proof.
  unfold newlines. induction 1 as [|c s Hc _ IH]; simpl; [done|].
  apply N.eqb_neq in Hc. by rewrite Hc.
Qed.

Lemma lit_cons (a : ascii) (s : String.string) :
  lit (String.String a s) = N_of_ascii a :: lit s.
Proof. reflexivity. Qed.

Lemma newlines_uint (u : Decimal.uint) :
  newlines (lit (NilEmpty.string_of_uint u)) = 0%nat.
Proof.
  induction u; simpl; [reflexivity|..]; rewrite lit_cons;
    unfold newlines in *; simpl; exact IHu.
Qed.

Lemma newlines_str_int (n : Z) : newlines (str_int n) = 0%nat.
Proof.
  unfold str_int, NilZero.string_of_int, NilZero.string_of_uint.
  destruct (Z.to_int n) as [u|u]; destruct u;
    try reflexivity; try apply (newlines_uint (_ _));
    rewrite lit_cons; unfold newlines; simpl;
    try apply (newlines_uint (_ _)); apply newlines_uint.
Qed.

Lemma newlines_entries (entries : list (pystr * Z)) :
  Forall (fun e => newlines e.1 = 0%nat) entries ->
  newlines (concat (map entry_line entries)) = length entries.
Proof.
  induction 1 as [|[t n] entries Ht _ IH]; [reflexivity|].
  cbn [map concat length]. rewrite newlines_app, IH. unfold entry_line.
  cbn [fst snd] in *. rewrite !newlines_app, Ht, newlines_str_int.
  reflexivity.
Qed.

(** ** The window, click by click *)

Section ClickFacts.
Context `{UnicodeData} `{Jieba}.
Implicit Types (d : desktop) (w : world).

Lemma command_returns (b : button) d : (command b d).1 = Ok tt.
Proof.
  destruct b; simpl.
  - unfold GUI_select_file. rewrite gbind_run.
    unfold filedialog_askopenfilename at 1.
    destruct (picker_answers d) as [|[|c p] rest]; reflexivity.
  - destruct (GUI_file_path d) as [[|c p]|] eqn:Hsel.
    + unfold GUI_analyze_file. by rewrite Hsel.
    + by rewrite (GUI_analyze_file_run d c p Hsel).
    + unfold GUI_analyze_file. by rewrite Hsel.
  - destruct (GUI_file_path d) as [[|c p]|] eqn:Hsel.
    + unfold GUI_count_word_frequency. by rewrite Hsel.
    + destruct (prompt_answers d) as [|[[|c' word]|] rest] eqn:Hword.
      * rewrite (GUI_count_word_frequency_cancelled d c p Hsel);
          [done | by rewrite Hword].
      * rewrite (GUI_count_word_frequency_cancelled d c p Hsel);
          [done | by rewrite Hword].
      * by rewrite (GUI_count_word_frequency_run d c p c' word rest Hsel Hword).
      * rewrite (GUI_count_word_frequency_cancelled d c p Hsel);
          [done | by rewrite Hword].
    + unfold GUI_count_word_frequency. by rewrite Hsel.
Qed.

(** X13.  No click ends in an exception: whatever the analysis raises is
    caught in the method, and the event loop goes on to the next click. *)
Theorem window_never_raises (clicks : list button) d :
  (mainloop clicks d).1 = Ok tt.
Proof.
  unfold mainloop. revert d. induction clicks as [|b clicks IH]; intros d.
  - reflexivity.
  - simpl. rewrite gbind_run. pose proof (command_returns b d) as Hb.
    destruct (command b d) as [[[]|e] d1]; [apply IH | discriminate].
Qed.

(** X14.  A cancelled file picker clears the selection: after it, Analyze
    File only shows the No File warning, with the analyzers' world and the
    output area as they were, whatever file had been selected before. *)
Theorem cancelled_picker_clears_selection d :
  default [] (head (picker_answers d)) = [] ->
  let d' := (mainloop [SelectFile; AnalyzeFile] d).2 in
  GUI_file_path d' = Some []
  ∧ dialogs d'
    = dialogs d ++ [Warning (lit "No File") (lit "Please select a file first.")]
  ∧ os d' = os d
  ∧ output_area d' = output_area d.
Proof.
  intros Hcancel d'. subst d'. unfold mainloop. simpl.
  unfold GUI_select_file, gbind, filedialog_askopenfilename.
  destruct (picker_answers d) as [|[|c p] rest]; simpl in Hcancel;
    try discriminate; by split_and!.
Qed.

(** X15.  With a file selected and a word typed, Count Word Frequency on a
    readable document shows one box, and the frequency it reports is
    [None]. *)
Theorem frequency_dialog_shows_None d (c : char) (p : pystr) (c' : char)
    (word : pystr) (rest : list (option pystr)) (text : pystr) :
  GUI_file_path d = Some (c :: p) ->
  prompt_answers d = Some (c' :: word) :: rest ->
  (extract (reader (c :: p)) (os d)).1 = Ok text ->
  dialogs (GUI_count_word_frequency d).2
  = dialogs d
    ++ [Info (lit "Word Frequency")
          (lit "The frequency of '" ++ (c' :: word) ++ lit "' is: None")].
Proof.
  intros Hsel Hword Hread.
  rewrite (GUI_count_word_frequency_run d c p c' word rest Hsel Hword).
  destruct (word_count_readable (c :: p) (c' :: word) text (os d) Hread)
    as (w' & ->).
  reflexivity.
Qed.

(** X16.  When the document cannot be read, the exception is shown in one
    error box with its message (for an unsupported extension, the message
    that names [.pdf] and [.docx]) and the output area keeps its text; the
    same box is shown by Count Word Frequency once a word is typed. *)
Theorem errors_shown_output_kept d (c : char) (p : pystr) (e : exn) :
  GUI_file_path d = Some (c :: p) ->
  (extract (reader (c :: p)) (os d)).1 = Raise e ->
  let d' := (GUI_analyze_file d).2 in
  dialogs d' = dialogs d ++ [Error (lit "Error") (str_exn e)]
  ∧ output_area d' = output_area d
  ∧ (supported (c :: p) = false -> str_exn e = unsupported_message)
  ∧ (forall c' word rest,
       prompt_answers d = Some (c' :: word) :: rest ->
       dialogs (GUI_count_word_frequency d).2
       = dialogs d ++ [Error (lit "Error") (str_exn e)]).
Proof.
  intros Hsel Hread d'. subst d'.
  rewrite (GUI_analyze_file_run d c p Hsel).
  destruct (analysis_unreadable (c :: p) e (os d) Hread) as (w' & ->).
  split_and!; try reflexivity.
  - intros Hu.
    rewrite (extract_unsupported (reader (c :: p)) (os d) Hu) in Hread.
    by injection Hread as <-.
  - intros c' word rest Hword.
    rewrite (GUI_count_word_frequency_run d c p c' word rest Hsel Hword).
    destruct (word_count_unreadable (c :: p) (c' :: word) e (os d) Hread)
      as (w2 & ->).
    reflexivity.
Qed.
End ClickFacts.

(** ** The window over a session *)

Section SessionFacts.
Context `{UnicodeData} `{Jieba}.
Implicit Types (d : desktop) (w : world).

Lemma top_tokens (l : list pystr) (k : Z) (P : pystr -> Prop) :
  Forall P l -> Forall (fun e => P e.1) (most_common (Counter l) k).
Proof.
  intros Hl. apply Forall_forall. intros [t n] Hin.
  destruct (most_common_Counter l k) as (_ & _ & _ & Hc & _).
  apply Hc in Hin as [Ht _]. rewrite Forall_forall in Hl. by apply Hl.
Qed.

(** X17.  After Analyze File on a readable document the output area holds
    the report of what the analysis of the selected file returned, a new
    analyzer's [analyze_file(10)] with its top ten digits and special
    characters of the text, and nothing of what the area held before:
    three headings and one line for every entry of the three lists, so five
    line ends more than there are entries (a line end being no decimal
    digit).  No dialog is shown. *)
Theorem report_has_a_line_per_entry d (c : char) (p : pystr) (text : pystr) :
  GUI_file_path d = Some (c :: p) ->
  (extract (reader (c :: p)) (os d)).1 = Ok text ->
  Py_UNICODE_ISDECIMAL 10 = false ->
  let d' := (GUI_analyze_file d).2 in
  exists results w',
    analysis (c :: p) (os d) = (Ok results, w')
    ∧ Numbers results = most_common (Counter (number_candidates text)) 10
    ∧ Special_Characters results
      = most_common (Counter (special_candidates text)) 10
    ∧ os d' = w'
    ∧ output_area d' = report results
    ∧ dialogs d' = dialogs d
    ∧ newlines (output_area d')
      = (5 + length (Chinese_Words results) + length (Numbers results)
         + length (Special_Characters results))%nat.
Proof.
  intros Hsel Hread Hnl d'. subst d'.
  rewrite (GUI_analyze_file_run d c p Hsel).
  destruct (analysis_readable (c :: p) text (os d) Hread)
    as (a & results & w' & -> & Hc & Hn & Hs & _).
  exists results, w'.
  split_and!; [reflexivity | exact Hn | exact Hs | reflexivity | reflexivity
              | reflexivity |].
  simpl.
  unfold report. rewrite !newlines_app.
  rewrite !newlines_entries.
  - change (newlines (lit "Most Common Chinese Words:")) with 0%nat.
    change (newlines (lit "Most Common Numbers:")) with 0%nat.
    change (newlines (lit "Most Common Special Characters:")) with 0%nat.
    change (newlines [10%N]) with 1%nat. lia.
  - rewrite Hs. apply (top_tokens _ _ (fun t => newlines t = 0%nat)). rewrite special_candidates_spec.
    apply Forall_forall. intros t Ht.
    apply list_elem_of_In, in_map_iff in Ht as (ch & <- & Hch).
    apply list_elem_of_In, list_elem_of_filter in Hch as [[_ Hsp] _].
    apply newlines_none. constructor; [|constructor]. by intros ->.
  - rewrite Hn. apply (top_tokens _ _ (fun t => newlines t = 0%nat)). rewrite number_candidates_spec.
    apply Forall_forall. intros t Ht.
    apply list_elem_of_In, in_map_iff in Ht as (ch & <- & Hch).
    apply list_elem_of_In, list_elem_of_filter in Hch as [Hd _].
    apply newlines_none. constructor; [|constructor]. intros ->. congruence.
  - rewrite Hc. apply (top_tokens _ _ (fun t => newlines t = 0%nat)). apply Forall_forall. intros t Ht.
    apply list_elem_of_In, filter_In in Ht as [_ Hm].
    apply fullmatch_chinese in Hm as [_ Hall]. apply newlines_none.
    eapply Forall_impl; [exact Hall|]. simpl. intros ch Hr ->. lia.
Qed.

Lemma GUI_analyze_readable d (c : char) (p : pystr) (text : pystr) :
  GUI_file_path d = Some (c :: p) ->
  (extract (reader (c :: p)) (os d)).1 = Ok text ->
  let d1 := (GUI_analyze_file d).2 in
  GUI_file_path d1 = Some (c :: p)
  ∧ (extract (reader (c :: p)) (os d1)).1 = Ok text
  ∧ len (logger_handlers (os d1)) = len (logger_handlers (os d)) + 1
  ∧ len (log_files (os d1))
    = len (log_files (os d)) + 3 * (len (logger_handlers (os d)) + 1).
Proof.
  intros Hsel Hread d1. subst d1.
  rewrite (GUI_analyze_file_run d c p Hsel).
  destruct (analysis_readable (c :: p) text (os d) Hread)
    as (a & results & w' & -> & _ & _ & _ & Hd & Hh & Hl).
  simpl. split_and!; [done | | | done].
  - rewrite <- Hread. by apply extract_path_only.
  - rewrite Hh. unfold len. rewrite length_app. simpl. lia.
Qed.

(** X18.  Every Analyze File on a readable document adds a handler to the
    logger and writes three records for each handler there is: [n]
    analyses in a row, begun with [h] handlers, leave [h + n] handlers and
    have written [3 n (2 h + n + 1) / 2] records. *)
Theorem log_grows_with_every_analysis (n : nat) d (c : char) (p : pystr)
    (text : pystr) :
  GUI_file_path d = Some (c :: p) ->
  (extract (reader (c :: p)) (os d)).1 = Ok text ->
  let d' := (mainloop (repeat AnalyzeFile n) d).2 in
  let h := len (logger_handlers (os d)) in
  len (logger_handlers (os d')) = h + Z.of_nat n
  ∧ 2 * (len (log_files (os d')) - len (log_files (os d)))
    = 3 * Z.of_nat n * (2 * h + Z.of_nat n + 1).
Proof.
  revert d. induction n as [|n IH]; intros d Hsel Hread d' h; subst d' h.
  - simpl. lia.
  - unfold mainloop in *. cbn [repeat gfor_each]. rewrite gbind_run.
    pose proof (command_returns AnalyzeFile d) as Hret.
    destruct (GUI_analyze_readable d c p text Hsel Hread)
      as (Hsel1 & Hread1 & Hh1 & Hl1).
    change (command AnalyzeFile) with GUI_analyze_file in *.
    destruct (GUI_analyze_file d) as [[[]|e] d1]; [|discriminate].
    simpl in Hsel1, Hread1, Hh1, Hl1.
    destruct (IH d1 Hsel1 Hread1) as [IHh IHl].
    rewrite IHh, Hh1. split; [lia|]. nia.
Qed.

(** X19.  Without a selected file, Analyze File and Count Word Frequency
    show the No File warning and do nothing else: no word is asked for and
    no analyzer is constructed.  With a file selected and the word prompt
    cancelled or left empty, Count Word Frequency shows nothing and
    constructs no analyzer. *)
Theorem guards_of_the_window d :
  (truthy (GUI_file_path d) = false ->
     let warned :=
       with_dialogs
         (dialogs d
          ++ [Warning (lit "No File") (lit "Please select a file first.")]) d in
     GUI_analyze_file d = (Ok tt, warned)
     ∧ GUI_count_word_frequency d = (Ok tt, warned))
  ∧ (truthy (GUI_file_path d) = true ->
     truthy (default None (head (prompt_answers d))) = false ->
     GUI_count_word_frequency d
     = (Ok tt, with_answers (picker_answers d) (tail (prompt_answers d)) d)).
Proof.
  split.
  - intros Hsel warned. subst warned.
    unfold GUI_analyze_file, GUI_count_word_frequency.
    destruct (GUI_file_path d) as [[|c p]|]; try discriminate; by split.
  - intros Hsel Hword.
    destruct (GUI_file_path d) as [[|c p]|] eqn:Hp; try discriminate.
    by apply (GUI_count_word_frequency_cancelled d c p).
Qed.
End SessionFacts.

(** ** Edges of [analyze_file] *)

Section EdgeFacts.
Context `{UnicodeData} `{Jieba}.
Implicit Types (self : FileAnalyzer) (w : world).

(** X20.  Two edges of [analyze_file] on a readable document: with
    [top_k_words] zero or negative the three lists are empty; for a document
    without text the [Numbers] and the [Special Characters] lists are
    empty. *)
Theorem analyze_file_edges self (k : Z) w (text : pystr) u :
  extract self w = (Ok text, u) ->
  exists res w',
    analyze_file self k w = (Ok res, w')
    ∧ (k <= 0 ->
       Chinese_Words res = [] ∧ Numbers res = []
       ∧ Special_Characters res = [])
    ∧ (text = [] -> Numbers res = [] ∧ Special_Characters res = []).
Proof.
  intros He. destruct (analyze_file_run self k w text u He) as (w' & Hrun & _).
  eexists _, w'. split; [exact Hrun|]. simpl. unfold most_common. split.
  - intros Hk. replace (Z.to_nat k) with 0%nat by lia. done.
  - intros ->. split; apply take_nil.
Qed.
End EdgeFacts.

(** ** The further properties on the samples *)

Section MoreSamples.
#[local] Existing Instance ascii_cjk_data.
#[local] Existing Instance space_jieba.

(** X1 on [greeting.pdf] and on [torn.pdf]. *)
Lemma pdf_text_in_page_order_witness :
  (_extract_text_from_pdf (analyzer_of (lit "greeting.pdf")) sample_world).1
  = Ok greeting_text
  ∧ (_extract_text_from_pdf (analyzer_of (lit "torn.pdf")) sample_world).1
    = Raise (ExtractionFailure (lit "cannot load page 1")).
Proof.
  destruct (pdf_text_in_page_order (analyzer_of (lit "greeting.pdf"))
              sample_world [Done greeting_text] eq_refl) as [Hok _].
  destruct (pdf_text_in_page_order (analyzer_of (lit "torn.pdf")) sample_world
              [Done greeting_text; Failed (lit "cannot load page 1")] eq_refl)
    as [_ Hfail].
  split.
  - rewrite (Hok [greeting_text] eq_refl). reflexivity.
  - exact (Hfail [greeting_text] _ [] eq_refl).
Defined.


(** X3 on [greeting.docx]: no special character in it. *)
Lemma docx_paragraphs_candidates_witness :
  exists res w',
    analyze_file (analyzer_of (lit "greeting.docx")) 10 sample_world
    = (Ok res, w')
    ∧ Special_Characters res = [].
Proof.
  destruct (docx_paragraphs_candidates (analyzer_of (lit "greeting.docx")) 10
              sample_world [nihao; [0x4e16; 0x754c]%N] eq_refl eq_refl eq_refl)
    as (res & w' & Hrun & Hs).
  exists res, w'. split; [exact Hrun|]. rewrite Hs. vm_compute. reflexivity.
Defined.

(** X4 on the list b, a, b, c, a. *)
Lemma word_frequency_totals_witness :
  let l := [lit "b"; lit "a"; lit "b"; lit "c"; lit "a"] in
  total (most_common (_word_frequency l) 2) <= 5
  ∧ total (most_common (_word_frequency l) 3) = 5.
Proof.
  intros l.
  destruct (word_frequency_totals l 2) as (_ & Hle & _).
  destruct (word_frequency_totals l 3) as (_ & _ & Hall).
  split; [exact Hle|]. apply Hall. vm_compute. discriminate.
Defined.

(** X5 in [bare_world], whose logger has one handler already: six
    records. *)
Lemma records_per_handler_witness :
  exists a w1,
    FileAnalyzer_init (lit "mixed.pdf") bare_world = (Ok a, w1)
    ∧ len (log_files (analyze_file a 10 w1).2) = 6.
Proof.
  destruct (FileAnalyzer_init (lit "mixed.pdf") bare_world) as [[a|e] w1]
    eqn:Hinit; [|vm_compute in Hinit; discriminate].
  destruct (extract a w1) as [[text|e] u] eqn:Hex.
  - exists a, w1. split; [reflexivity|].
    destruct (records_per_handler _ 10 _ _ _ _ _ Hinit Hex) as [_ ->].
    reflexivity.
  - exfalso. vm_compute in Hinit. injection Hinit as <- <-.
    vm_compute in Hex. discriminate.
Defined.


(** X7 on [greeting.pdf] and "你好". *)
Lemma count_printed_once_witness :
  stdout
    (count_given_word_frequency (analyzer_of (lit "greeting.pdf")) nihao
       sample_world).2
  = [[PyStr (lit "The frequency of the given word is: "); PyInt 2]].
Proof.
  edestruct (count_printed_once (analyzer_of (lit "greeting.pdf")) nihao
               sample_world) as [Hout _]; [vm_compute; reflexivity|].
  rewrite Hout. vm_compute. reflexivity.
Defined.

(** X8 for the empty word and for " 你好". *)
Lemma unstripped_word_counts_zero_witness :
  list_count [] (counted_tokens greeting_text) = 0
  ∧ list_count (32%N :: nihao) (counted_tokens greeting_text) = 0.
Proof.
  split.
  - apply unstripped_word_counts_zero. by left.
  - apply unstripped_word_counts_zero. right. vm_compute. discriminate.
Defined.

(** X11 in [sample_world]. *)
Lemma stopwords_are_stripped_witness :
  exists a w',
    FileAnalyzer_init (lit "mixed.pdf") sample_world = (Ok a, w')
    ∧ forall y, y ∈ stopwords a -> strip y = y.
Proof.
  destruct (FileAnalyzer_init (lit "mixed.pdf") sample_world) as [[a|e] w']
    eqn:Hinit; [|vm_compute in Hinit; discriminate].
  exists a, w'. split; [reflexivity|]. intros y Hy.
  by destruct (stopwords_are_stripped _ _ _ _ Hinit y Hy) as [? _].
Defined.

End MoreSamples.

Section WindowSamples.
#[local] Existing Instance ascii_cjk_data.
#[local] Existing Instance space_jieba.

(** X14 in a window where [mixed.pdf] was selected. *)
Lemma cancelled_picker_clears_selection_witness :
  let d' :=
    (mainloop [SelectFile; AnalyzeFile] (window_on (lit "mixed.pdf"))).2 in
  GUI_file_path d' = Some [] ∧ os d' = bare_world.
Proof.
  intros d'.
  destruct (cancelled_picker_clears_selection (window_on (lit "mixed.pdf"))
              eq_refl) as (Hsel & _ & Hos & _).
  split; [exact Hsel | exact Hos].
Defined.

(** X15 on [mixed.pdf] and "你好". *)
Lemma frequency_dialog_shows_None_witness :
  dialogs (GUI_count_word_frequency (window_on (lit "mixed.pdf"))).2
  = [Info (lit "Word Frequency")
       (lit "The frequency of '" ++ nihao ++ lit "' is: None")].
Proof.
  apply (frequency_dialog_shows_None (window_on (lit "mixed.pdf"))
           109%N (lit "ixed.pdf") 0x4f60%N [0x597d%N] [] mixed_text).
  - reflexivity.
  - reflexivity.
  - vm_compute. reflexivity.
Defined.

(** X16 on [notes.txt]. *)
Lemma errors_shown_output_kept_witness :
  let d' := (GUI_analyze_file (window_on (lit "notes.txt"))).2 in
  dialogs d' = [Error (lit "Error") unsupported_message]
  ∧ output_area d' = lit "earlier report".
Proof.
  intros d'.
  destruct (errors_shown_output_kept (window_on (lit "notes.txt"))
              110%N (lit "otes.txt") (ValueError unsupported_message))
    as (Hd & Ho & _); [reflexivity | vm_compute; reflexivity |].
  split; [exact Hd | exact Ho].
Defined.

(** X17 on [mixed.pdf]: the analysis returns six entries, and the report
    of them has eleven line ends. *)
Lemma report_has_a_line_per_entry_witness :
  let d' := (GUI_analyze_file (window_on (lit "mixed.pdf"))).2 in
  exists results w',
    analysis (lit "mixed.pdf") (os (window_on (lit "mixed.pdf")))
    = (Ok results, w')
    ∧ Numbers results = [([51%N], 1); ([50%N], 1)]
    ∧ output_area d' = report results
    ∧ newlines (output_area d') = 11%nat.
Proof.
  intros d'.
  destruct (report_has_a_line_per_entry (window_on (lit "mixed.pdf"))
              109%N (lit "ixed.pdf") mixed_text)
    as (results & w' & Hrun & Hnum & _ & _ & Hout & _ & Hn);
    [reflexivity | vm_compute; reflexivity | reflexivity |].
  fold d' in Hout, Hn. exists results, w'.
  split_and!; [exact Hrun | rewrite Hnum; vm_compute; reflexivity
              | exact Hout |].
  rewrite Hn. vm_compute in Hrun. injection Hrun as <- _. reflexivity.
Defined.

(** X18 for three analyses in [bare_world], which has one handler: four
    handlers and 3 * (2 + 3 + 4) records. *)
Lemma log_grows_with_every_analysis_witness :
  let d' :=
    (mainloop (repeat AnalyzeFile 3) (window_on (lit "mixed.pdf"))).2 in
  len (logger_handlers (os d')) = 4 ∧ len (log_files (os d')) = 27.
Proof.
  intros d'.
  destruct (log_grows_with_every_analysis 3 (window_on (lit "mixed.pdf"))
              109%N (lit "ixed.pdf") mixed_text)
    as [Hh Hl]; [reflexivity | vm_compute; reflexivity |].
  fold d' in Hh, Hl. split; [exact Hh|].
  change (len (log_files (os (window_on (lit "mixed.pdf"))))) with 0 in Hl.
  change (len (logger_handlers (os (window_on (lit "mixed.pdf"))))) with 1 in Hl.
  lia.
Defined.

(** X19 in a window just opened, and in one where the prompt is
    cancelled. *)
Lemma guards_of_the_window_witness :
  dialogs (GUI_analyze_file (GUI_init sample_world [] [])).2
  = [Warning (lit "No File") (lit "Please select a file first.")]
  ∧ GUI_count_word_frequency
      (with_answers [] [None] (window_on (lit "mixed.pdf")))
    = (Ok tt, with_answers [] [] (window_on (lit "mixed.pdf"))).
Proof.
  destruct (guards_of_the_window (GUI_init sample_world [] [])) as [Hnone _].
  destruct (guards_of_the_window
              (with_answers [] [None] (window_on (lit "mixed.pdf"))))
    as [_ Hword].
  split.
  - destruct (Hnone eq_refl) as [-> _]. reflexivity.
  - exact (Hword eq_refl eq_refl).
Defined.

(** X20 on [mixed.pdf] with [top_k_words] zero. *)
Lemma analyze_file_edges_witness :
  exists res w',
    analyze_file (analyzer_of (lit "mixed.pdf")) 0 sample_world = (Ok res, w')
    ∧ Chinese_Words res = [] ∧ Numbers res = [] ∧ Special_Characters res = [].
Proof.
  edestruct (analyze_file_edges (analyzer_of (lit "mixed.pdf")) 0 sample_world)
    as (res & w' & Hrun & Hzero & _); [vm_compute; reflexivity|].
  exists res, w'. split; [exact Hrun|]. apply Hzero. lia.
Defined.
End WindowSamples.
